(** * ZET.py: calendar resolution, departure projection and realtime
    correlation

    A shallow embedding of the computational core of [ZET.py]:
    [time_str_to_seconds], [active_services], [get_static_trips_for_route],
    [correlate] and the [upcoming] frame computed by [search_by_stop_id].

    Conventions of the embedding.
    - A pandas frame read with [dtype=str] is the list of its rows; a cell is
      [option string], [None] standing for NaN (an empty CSV field).
    - A Python [str] is a Rocq [string]; ASCII text is represented exactly.
    - A Python [set] of strings is a [gset string], a [dict] a [gmap].
    - Python integers are [Z]. *)

From Stdlib Require Import ZArith Lia Ascii String.
From stdpp Require Import gmap strings list sorting pretty.

Local Open Scope Z_scope.

(** ** Python primitives used by the program *)

Module Py.

(** Truthiness of an optional string argument ([None] and [""] are falsy). *)
Definition truthy (o : option string) : bool :=
  match o with
  | None => false
  | Some s => negb (String.eqb s "")
  end.

(** [str.lower] on ASCII text. *)
Definition lower_ascii (c : ascii) : ascii :=
  let n := nat_of_ascii c in
  if ((65 <=? n)%nat && (n <=? 90)%nat)%bool then ascii_of_nat (n + 32) else c.

Fixpoint lower (s : string) : string :=
  match s with
  | EmptyString => EmptyString
  | String c r => String (lower_ascii c) (lower r)
  end.

(** [s.split(sep)] for a one-character separator: never returns the empty
    list, ["".split(":")] is [[""]]. *)
Fixpoint split (sep : ascii) (s : string) : list string :=
  match s with
  | EmptyString => [EmptyString]
  | String c r =>
      if Ascii.eqb c sep then EmptyString :: split sep r
      else match split sep r with
           | p :: ps => String c p :: ps
           | [] => [String c EmptyString]
           end
  end.

(** Characters that [int] strips on both sides (the ASCII ones of
    [str.isspace]). *)
Definition is_space (c : ascii) : bool :=
  let n := nat_of_ascii c in
  ((n =? 32)%nat || ((9 <=? n)%nat && (n <=? 13)%nat)
   || ((28 <=? n)%nat && (n <=? 31)%nat))%bool.

Fixpoint lstrip (s : string) : string :=
  match s with
  | String c r => if is_space c then lstrip r else s
  | EmptyString => EmptyString
  end.

Fixpoint rstrip (s : string) : string :=
  match s with
  | EmptyString => EmptyString
  | String c r =>
      match rstrip r with
      | EmptyString => if is_space c then EmptyString else String c EmptyString
      | r' => String c r'
      end
  end.

Definition strip (s : string) : string := rstrip (lstrip s).

Definition digit_of (c : ascii) : option Z :=
  let n := nat_of_ascii c in
  if ((48 <=? n)%nat && (n <=? 57)%nat)%bool then Some (Z.of_nat n - 48) else None.

(** The digits of a base-10 literal, left to right; a single underscore is
    allowed between two digits. [seen] tells whether the previous character
    was a digit. *)
Fixpoint int_digits (s : string) (acc : Z) (seen : bool) : option Z :=
  match s with
  | EmptyString => if seen then Some acc else None
  | String c r =>
      if Ascii.eqb c "_" then
        if seen then int_digits r acc false else None
      else
        match digit_of c with
        | Some d => int_digits r (10 * acc + d) true
        | None => None
        end
  end.

Fixpoint count_digits (s : string) : nat :=
  match s with
  | EmptyString => 0
  | String c r =>
      (match digit_of c with Some _ => 1 | None => 0 end + count_digits r)%nat
  end.

(** CPython's default [sys.int_max_str_digits]. *)
Definition int_max_str_digits : nat := 4300.

(** [int(s)] for a string: [None] is [ValueError]. *)
Definition int (s : string) : option Z :=
  let s := strip s in
  let '(neg, body) :=
    match s with
    | String "-" r => (true, r)
    | String "+" r => (false, r)
    | _ => (false, s)
    end in
  if (int_max_str_digits <? count_digits body)%nat then None
  else
    match int_digits body 0 false with
    | Some n => Some (if neg then - n else n)
    | None => None
    end.

(** [datetime.date]: proleptic Gregorian year, month, day. Dates compare
    as the triples (year, month, day). *)
Record date := Date { year : Z; month : Z; day : Z }.

Global Instance date_eq_dec : EqDecision date.
Proof. solve_decision. Defined.

Definition date_leb (a b : date) : bool :=
  (year a <? year b)
  || ((year a =? year b)
      && ((month a <? month b)
          || ((month a =? month b) && (day a <=? day b)))).

Definition is_leap (y : Z) : bool :=
  (y mod 4 =? 0) && (negb (y mod 100 =? 0) || (y mod 400 =? 0)).

Definition days_before_year (y : Z) : Z :=
  let y1 := y - 1 in y1 * 365 + y1 / 4 - y1 / 100 + y1 / 400.

Definition days_before_month (y m : Z) : Z :=
  nth (Z.to_nat m) [-1; 0; 31; 59; 90; 120; 151; 181; 212; 243; 273; 304; 334] 0
  + (if (2 <? m) && is_leap y then 1 else 0).

Definition days_in_month (y m : Z) : Z :=
  if (m =? 2) && is_leap y then 29
  else nth (Z.to_nat m) [-1; 31; 28; 31; 30; 31; 30; 31; 31; 30; 31; 30; 31] 0.

Definition toordinal (d : date) : Z :=
  days_before_year (year d) + days_before_month (year d) (month d) + day d.

(** [date.weekday()]: Monday is 0, Sunday is 6. *)
Definition weekday (d : date) : Z := (toordinal d + 6) mod 7.

(** The dates [datetime.date] can hold. *)
Definition valid_date (d : date) : bool :=
  (1 <=? year d) && (year d <=? 9999) && (1 <=? month d) && (month d <=? 12)
  && (1 <=? day d) && (day d <=? days_in_month (year d) (month d)).

(** [datetime.datetime], as far as the program reads it. *)
Record datetime := Datetime { dt_date : date; hour : Z; minute : Z; second : Z }.

End Py.

(** ** [time_str_to_seconds] *)

(** [None] is the Python [None] the function returns for a string that has
    not two or three fields, or a field [int] rejects. The argument is a
    [str] at every call of the program. *)
Definition time_str_to_seconds (t : string) : option Z :=
  match Py.split ":" t with
  | [p0; p1; p2] =>
      h ← Py.int p0; m ← Py.int p1; s ← Py.int p2;
      Some (h * 3600 + m * 60 + s)
  | [p0; p1] =>
      h ← Py.int p0; m ← Py.int p1;
      Some (h * 3600 + m * 60 + 0)
  | _ => None
  end.

(** ** Frames of the static feed *)

(** A cell of a frame read with [dtype=str]: [None] is NaN. *)
Abbreviation cell := (option string).

(** [Series.astype(str)]: NaN becomes the string ["nan"]. *)
Definition astype_str (c : cell) : string := default "nan" c.

(** [Series.dropna().astype(str).tolist()] on a column of a frame. *)
Definition dropna_tolist {A} (col : A → cell) (rows : list A) : list string :=
  omap col rows.

(** A row of [calendar.txt]. *)
Record calendar_row := CalendarRow {
  cal_service_id : cell;
  monday : cell; tuesday : cell; wednesday : cell; thursday : cell;
  friday : cell; saturday : cell; sunday : cell;
  start_date : cell;
  end_date : cell
}.

(** A row of [calendar_dates.txt]. *)
Record calendar_dates_row := CalendarDatesRow {
  cd_service_id : cell;
  cd_date : cell;
  exception_type : cell
}.

(** [calendar[weekdays[i]]] for [i = target_date.weekday()], which is always
    in 0..6 (see [weekday_range]). *)
Definition weekdays (i : Z) : calendar_row → cell :=
  match i with
  | 0 => monday | 1 => tuesday | 2 => wednesday | 3 => thursday
  | 4 => friday | 5 => saturday | _ => sunday
  end.

(** [set.update] and [set.difference_update] with a list argument. *)
Definition set_update (active : gset string) (l : list string) : gset string :=
  active ∪ list_to_set l.
Definition set_difference_update (active : gset string) (l : list string) : gset string :=
  active ∖ list_to_set l.

(** ** [active_services] *)

Section ActiveServices.

(** [pd.to_datetime(_, format="%Y%m%d", errors='coerce').dt.date] on one
    string: [None] is NaT. The parser belongs to pandas and is a parameter
    here; a NaN cell is NaT whatever the parser. *)
Variable to_datetime : string → option Py.date.

Definition to_date (c : cell) : option Py.date := c ≫= to_datetime.

Definition fillna (d : Py.date) (o : option Py.date) : Py.date := default d o.

(** The mask [valid_date] of the source, on one row. *)
Definition valid_date (target_date : Py.date) (r : calendar_row) : bool :=
  Py.date_leb (fillna (Py.Date 1900 1 1) (to_date (start_date r))) target_date
  && Py.date_leb target_date (fillna (Py.Date 2900 1 1) (to_date (end_date r))).

(** The mask [valid_weekday] of the source, on one row. *)
Definition valid_weekday (target_weekday : Z) (r : calendar_row) : bool :=
  String.eqb (astype_str (weekdays target_weekday r)) "1".

Definition active_services
    (calendar : option (list calendar_row))
    (calendar_dates : option (list calendar_dates_row))
    (target_date : Py.date) : gset string :=
  let active : gset string := ∅ in
  let target_weekday := Py.weekday target_date in
  let active :=
    match calendar with
    | Some calendar =>
        set_update active
          (dropna_tolist cal_service_id
             (List.filter
                (λ r, valid_date target_date r && valid_weekday target_weekday r)
                calendar))
    | None => active
    end in
  let active :=
    match calendar_dates with
    | Some calendar_dates =>
        let exceptions :=
          List.filter
            (λ e, bool_decide (to_date (cd_date e) = Some target_date))
            calendar_dates in
        let active :=
          set_update active
            (dropna_tolist cd_service_id
               (List.filter
                  (λ e, String.eqb (astype_str (exception_type e)) "1")
                  exceptions)) in
        set_difference_update active
          (dropna_tolist cd_service_id
             (List.filter
                (λ e, String.eqb (astype_str (exception_type e)) "2")
                exceptions))
    | None => active
    end in
  active.

End ActiveServices.

(** The reading of a well-formed GTFS date, eight digits [YYYYMMDD] naming a
    day of the calendar; every other string is taken as unparsable. It
    instantiates [to_datetime] in the concrete cases below. *)
Definition to_datetime_Ymd (s : string) : option Py.date :=
  if negb (String.length s =? 8)%nat then None
  else
    y ← Py.int_digits (substring 0 4 s) 0 false;
    m ← Py.int_digits (substring 4 2 s) 0 false;
    d ← Py.int_digits (substring 6 2 s) 0 false;
    let dt := Py.Date y m d in
    if forallb (λ c, bool_decide (is_Some (Py.digit_of c))) (list_ascii_of_string s)
       && Py.valid_date dt
    then Some dt else None.

(** A row of [trips.txt], [stop_times.txt], [stops.txt]. The fields are the
    columns the program indexes. A frame also records the names of the
    columns it has, which the guards [name in frame.columns] test; a column
    that the program indexes without a guard is taken to be there (the
    program raises [KeyError] otherwise). *)
Record trip_row := TripRow {
  trip_id : cell;
  trip_route_id : cell;
  trip_service_id : cell;
  trip_headsign : cell
}.

Record stop_time_row := StopTimeRow {
  st_trip_id : cell;
  st_stop_id : cell;
  arrival_time : cell;
  departure_time : cell;
  stop_sequence : cell
}.

Record stop_row := StopRow {
  stop_id : cell;
  stop_name : cell
}.

Record frame (row : Type) := Frame {
  columns : list string;
  rows : list row
}.
Arguments Frame {row} _ _.
Arguments columns {row} _.
Arguments rows {row} _.

Definition has_column {row} (name : string) (df : frame row) : bool :=
  bool_decide (name ∈ columns df).

(** [series == value] on one cell: NaN equals nothing. *)
Definition cell_eqb (c : cell) (v : string) : bool := bool_decide (c = Some v).

(** [series.isin(active)] on one cell. *)
Definition isin (active : gset string) (c : cell) : bool :=
  match c with
  | Some v => bool_decide (v ∈ active)
  | None => false
  end.

(** [frame.set_index(key)[value].to_dict()]: a later row overwrites an
    earlier one with the same key. A NaN key is a float, which no string
    looked up in the dict equals, so such a row is left out. *)
Definition to_dict {row} (key value : row → cell) (l : list row) : gmap string cell :=
  fold_left
    (λ d r, match key r with Some k => <[k := value r]> d | None => d end)
    l ∅.

(** ** The realtime feed *)

Record TripDescriptor := { td_trip_id : string; td_route_id : string }.

Record StopTimeUpdate := { stu_stop_id : string; stu_stop_sequence : Z }.

(** [tu_trip] is [None] when [HasField("trip")] is false. *)
Record TripUpdate := {
  tu_trip : option TripDescriptor;
  stop_time_update : list StopTimeUpdate
}.

Record VehicleDescriptor := { vd_id : string }.

Record VehiclePosition := {
  vp_trip : option TripDescriptor;
  vp_vehicle : option VehicleDescriptor;
  vp_stop_id : string
}.

Record FeedEntity := {
  fe_id : string;
  trip_update : option TripUpdate;
  vehicle : option VehiclePosition
}.

Record FeedMessage := { entity : list FeedEntity }.

(** The dict appended to [matches]. *)
Record correlation := Correlation {
  c_entity_id : string;
  c_trip_id : option string;
  c_trip_update : option TripUpdate;
  c_vehicle : option VehiclePosition
}.

(** [veh.vehicle.id]: reading an unset sub-message gives the default one,
    whose id is the empty string. *)
Definition vehicle_id_of (veh : VehiclePosition) : string :=
  match vp_vehicle veh with
  | Some d => vd_id d
  | None => ""
  end.

(** ** [correlate] *)

Definition trip_to_route (trips : option (frame trip_row)) : gmap string cell :=
  match trips with
  | Some trips =>
      if has_column "trip_id" trips && has_column "route_id" trips
      then to_dict trip_id trip_route_id (rows trips)
      else ∅
  | None => ∅
  end.

(** One turn of the loop over [feed.entity]; [matches] is the list built so
    far. *)
Definition correlate_step (trip_to_route : gmap string cell)
    (route_id vehicle_id stop_id : option string)
    (matches : list correlation) (entity : FeedEntity) : list correlation :=
  let tu := trip_update entity in
  let veh := vehicle entity in
  let trip :=
    match tu ≫= tu_trip with
    | Some t => Some t
    | None => veh ≫= vp_trip
    end in
  let trip_id := td_trip_id <$> trip in
  let matched :=
    if Py.truthy route_id then
      match trip_id ≫= (trip_to_route !!.) with
      | Some r => bool_decide (r = route_id)
      | None => false
      end
    else
      match (if Py.truthy vehicle_id then veh else None) with
      | Some veh =>
          let vid := vehicle_id_of veh in
          negb (String.eqb vid "")
          && String.eqb (Py.lower vid) (Py.lower (default "None" vehicle_id))
      | None =>
          match (if Py.truthy stop_id then tu else None) with
          | Some tu =>
              existsb (λ stu, bool_decide (Some (stu_stop_id stu) = stop_id))
                (stop_time_update tu)
          | None => false
          end
      end in
  if matched
  then matches ++ [Correlation (fe_id entity) trip_id tu veh]
  else matches.

Definition correlate (feed : FeedMessage) (trips : option (frame trip_row))
    (route_id vehicle_id stop_id : option string) : list correlation :=
  fold_left
    (correlate_step (trip_to_route trips) route_id vehicle_id stop_id)
    (entity feed) [].

(** ** [get_static_trips_for_route] *)

Record stop_entry := StopEntry {
  se_stop_id : cell;
  se_stop_name : cell;
  se_arrival : cell;
  se_departure : cell;
  se_seq : cell
}.

Record trip_schedule := TripSchedule {
  ts_trip_id : cell;
  ts_headsign : cell;
  ts_stops : list stop_entry
}.

(** The order of [sort_values] on a column of strings: by code point, NaN
    last. *)
Definition cell_le (a b : cell) : Prop :=
  match a, b with
  | _, None => True
  | None, Some _ => False
  | Some x, Some y => String.le x y
  end.

Global Instance cell_le_dec : RelDecision cell_le.
Proof. intros [x|] [y|]; simpl; apply _. Defined.

(** [frame.sort_values(key)]. Which of two rows with the same key comes
    first is left open by pandas' default sort; the statements below do not
    depend on it. *)
Definition sort_values {row} {K} (R : relation K) `{!RelDecision R}
    (key : row → K) (l : list row) : list row :=
  @merge_sort row (λ a b, R (key a) (key b))
    (λ a b, decide_rel R (key a) (key b)) l.

(** The body of the loop over the candidate trips: the schedule appended
    to [out] for the trip [t]. *)
Definition schedule_of_trip (stop_times : frame stop_time_row)
    (stop_names : gmap string cell) (t : trip_row) : trip_schedule :=
  let trip_id := trip_id t in
  let sts :=
    sort_values cell_le stop_sequence
      (List.filter (λ s, bool_decide (is_Some trip_id ∧ st_trip_id s = trip_id))
         (rows stop_times)) in
  let stops_list :=
    map
      (λ s,
         let stop_id := st_stop_id s in
         let name := default stop_id (stop_id ≫= (stop_names !!.)) in
         StopEntry stop_id name (arrival_time s) (departure_time s) (stop_sequence s))
      sts in
  TripSchedule trip_id (trip_headsign t) stops_list.

(** The dict [stop_names]. A NaN [stop_id] is not a key of it. *)
Definition stop_names_of (stops : option (frame stop_row)) : gmap string cell :=
  match stops with
  | Some stops =>
      if has_column "stop_id" stops && has_column "stop_name" stops
      then to_dict stop_id stop_name (rows stops)
      else ∅
  | None => ∅
  end.

Definition get_static_trips_for_route
    (trips : option (frame trip_row))
    (stop_times : option (frame stop_time_row))
    (stops : option (frame stop_row))
    (route_id : string) (active : gset string) : list trip_schedule :=
  match trips, stop_times with
  | Some trips, Some stop_times =>
      let cand := List.filter (λ t, cell_eqb (trip_route_id t) route_id) (rows trips) in
      let cand :=
        if has_column "service_id" trips && bool_decide (active ≠ ∅)
        then List.filter (λ t, isin active (trip_service_id t)) cand
        else cand in
      let stop_names := stop_names_of stops in
      map (schedule_of_trip stop_times stop_names) cand
  | _, _ => []
  end.

(** ** The [upcoming] frame of [search_by_stop_id] *)

(** A value of the column [dep_sec]. [Series.apply] builds its result
    through pandas' dtype inference: when every result is an [int] the column
    is numeric; when some are [int] and some [None] it is a float column and
    each [None] has become NaN; when all are [None] it is an object column
    that still holds [None]. Numbers are kept exact: a float column holds
    the integers below 2^53 exactly, far above any time of day. *)
Inductive dep_cell := DepNum (z : Z) | DepNaN | DepNone.

Definition apply_infer (l : list (option Z)) : list dep_cell :=
  if forallb (λ o, bool_decide (o = None)) l
  then map (λ _, DepNone) l
  else map (λ o, match o with Some z => DepNum z | None => DepNaN end) l.

(** A value of the numeric column [delta]. *)
Inductive num := Num (z : Z) | NaN.

(** [series >= bound] on one value: false on NaN. *)
Definition num_geb (x : num) (bound : Z) : bool :=
  match x with
  | Num z => bound <=? z
  | NaN => false
  end.

(** The order of [sort_values] on a numeric column: NaN last. *)
Definition num_le (a b : num) : Prop :=
  match a, b with
  | _, NaN => True
  | NaN, Num _ => False
  | Num x, Num y => x ≤ y
  end.

Global Instance num_le_dec : RelDecision num_le.
Proof. intros [x|] [y|]; simpl; apply _. Defined.

(** A row of [merged], with the column [delta] once it is computed. *)
Record merged_row := MergedRow {
  m_stop_time : stop_time_row;
  m_dep_sec : dep_cell;
  m_route_id : cell;
  m_service_id : cell
}.

Record upcoming_row := UpcomingRow {
  u_row : merged_row;
  delta : num
}.

(** [sts.merge(trips[["trip_id","route_id","service_id"]], on="trip_id",
    how="left")]: every left row, in order, once per right row with the same
    key (pandas matches a NaN key with a NaN key), or once with NaN on the
    right when there is none. *)
Definition merge_left (sts : list (stop_time_row * dep_cell)) (trips : list trip_row)
    : list merged_row :=
  sts ≫= (λ '(s, d),
    match List.filter (λ t, bool_decide (trip_id t = st_trip_id s)) trips with
    | [] => [MergedRow s d None None]
    | ts => map (λ t, MergedRow s d (trip_route_id t) (trip_service_id t)) ts
    end).

(** The lambda that computes [delta]. *)
Definition delta_of (sec : Z) (x : dep_cell) : num :=
  match x with
  | DepNone => Num 999999
  | DepNaN => NaN
  | DepNum z => Num (z - sec)
  end.

(** Lines 479 to 485 of the source but for line 482 ([active] is an
    argument): the frame [merged] with its column [delta], from the rows
    [sts] of the stop. [has_service_id] tells whether [merged] has a column
    [service_id]. *)
Definition merged_with_delta (trips : frame trip_row) (sts : list stop_time_row)
    (user_dt : Py.datetime) (has_service_id : bool) (active : gset string)
    : list upcoming_row :=
  let dep_sec :=
    apply_infer (map (λ s, departure_time s ≫= time_str_to_seconds) sts) in
  let sec := Py.hour user_dt * 3600 + Py.minute user_dt * 60 + Py.second user_dt in
  let merged := merge_left (zip sts dep_sec) (rows trips) in
  let merged :=
    if has_service_id && bool_decide (active ≠ ∅)
    then List.filter (λ r, isin active (m_service_id r)) merged
    else merged in
  map (λ r, UpcomingRow r (delta_of sec (m_dep_sec r))) merged.

(** [trips[["trip_id","route_id","service_id"]]] brings a column
    [service_id] into [merged] unless [stop_times] has one of that name, in
    which case pandas renames both. *)
Definition merged_has_service_id (stop_times : frame stop_time_row) : bool :=
  negb (has_column "service_id" stop_times).

(** The frame [upcoming] of lines 475 to 486, of which every row is printed;
    it is empty in the branches that print a message or nothing. *)
Definition upcoming (trips : frame trip_row) (stop_times : frame stop_time_row)
    (sid : string) (user_dt : Py.datetime) (active : gset string)
    : list upcoming_row :=
  let sts := List.filter (λ s, cell_eqb (st_stop_id s) sid) (rows stop_times) in
  match sts with
  | [] => []
  | _ =>
      if has_column "departure_time" stop_times then
        let merged :=
          merged_with_delta trips sts user_dt (merged_has_service_id stop_times) active in
        take 50
          (sort_values num_le delta
             (List.filter (λ r, num_geb (delta r) (-300)) merged))
      else []
  end.

Section SearchByStopId.

Variable to_datetime : string → option Py.date.


End SearchByStopId.

(** ** Vocabulary of the statements *)

(** A decimal literal: a non-empty string of ASCII digits, short enough for
    [int]; and the number it denotes. *)
Fixpoint all_digits (s : string) : bool :=
  match s with
  | EmptyString => true
  | String c r =>
      match Py.digit_of c with Some _ => all_digits r | None => false end
  end.

Definition decimal_literal (s : string) : bool :=
  negb (String.eqb s "") && all_digits s
  && (String.length s <=? Py.int_max_str_digits)%nat.

Definition decimal_value (s : string) : Z :=
  fold_left (λ acc c, 10 * acc + (Z.of_nat (nat_of_ascii c) - 48))
    (list_ascii_of_string s) 0.

(** The order of dates, and the sentinel bounds of [active_services]. *)
Definition date_le (a b : Py.date) : Prop :=
  Py.year a < Py.year b
  ∨ (Py.year a = Py.year b
     ∧ (Py.month a < Py.month b
        ∨ (Py.month a = Py.month b ∧ Py.day a ≤ Py.day b))).

Definition earliest : Py.date := Py.Date 1900 1 1.
Definition latest : Py.date := Py.Date 2900 1 1.

Section CalendarVocabulary.

Variable to_datetime : string → option Py.date.

(** The window of a rule, a sentinel standing for a bound that is missing
    or does not parse. *)
Definition start_bound (r : calendar_row) : Py.date :=
  match to_date to_datetime (start_date r) with
  | Some d => d
  | None => earliest
  end.

Definition end_bound (r : calendar_row) : Py.date :=
  match to_date to_datetime (end_date r) with
  | Some d => d
  | None => latest
  end.

(** The rule [r] puts the service [s] in the base set of [target]. *)
Definition base_rule (target : Py.date) (s : string) (r : calendar_row) : Prop :=
  cal_service_id r = Some s
  ∧ weekdays (Py.weekday target) r = Some "1"
  ∧ date_le (start_bound r) target
  ∧ date_le target (end_bound r).

(** The row [e] is an exception of the given kind (["1"] added, ["2"]
    removed) for the service [s] on [target]. *)
Definition exception_on (target : Py.date) (kind s : string)
    (e : calendar_dates_row) : Prop :=
  cd_service_id e = Some s
  ∧ to_date to_datetime (cd_date e) = Some target
  ∧ exception_type e = Some kind.

End CalendarVocabulary.

(** ** Sample data

    The calendar of the end-to-end scenario: a rule for service A on the
    Mondays of 2024, and an added and a removed exception for service B on
    2024-06-10, a Monday. *)
Definition monday_rule_A : calendar_row :=
  CalendarRow (Some "A") (Some "1") (Some "0") (Some "0") (Some "0") (Some "0")
    (Some "0") (Some "0") (Some "20240101") (Some "20241231").

Definition added_B : calendar_dates_row :=
  CalendarDatesRow (Some "B") (Some "20240610") (Some "1").

Definition removed_B : calendar_dates_row :=
  CalendarDatesRow (Some "B") (Some "20240610") (Some "2").

(** A rule for every day of the week from 2024-01-01 on, without an end
    date. *)
Definition open_ended_rule : calendar_row :=
  CalendarRow (Some "A") (Some "1") (Some "1") (Some "1") (Some "1") (Some "1")
    (Some "1") (Some "1") (Some "20240101") None.

(** ** Vocabulary of the statements on [correlate] *)

(** The trip descriptor of an entity: that of its trip update when there is
    one, else that of its vehicle, else none. *)
Definition trip_update_ref (e : FeedEntity) : option TripDescriptor :=
  trip_update e ≫= tu_trip.

Definition vehicle_ref (e : FeedEntity) : option TripDescriptor :=
  vehicle e ≫= vp_trip.

Definition resolved_trip (e : FeedEntity) : option TripDescriptor :=
  match trip_update_ref e with
  | Some t => Some t
  | None => vehicle_ref e
  end.

(** The match reported for an entity. *)
Definition correlation_of (e : FeedEntity) : correlation :=
  Correlation (fe_id e) (td_trip_id <$> resolved_trip e) (trip_update e) (vehicle e).

(** The trip of the entity is mapped to the route [r] by the static trips. *)
Definition on_route (trips : option (frame trip_row)) (r : string)
    (e : FeedEntity) : Prop :=
  match resolved_trip e with
  | Some t => trip_to_route trips !! td_trip_id t = Some (Some r)
  | None => False
  end.

Global Instance on_route_dec trips r e : Decision (on_route trips r e).
Proof. unfold on_route. destruct (resolved_trip e); apply _. Defined.

(** The entity has a vehicle whose id is [v] up to case. *)
Definition vehicle_matches (v : string) (e : FeedEntity) : Prop :=
  match vehicle e with
  | Some veh => Py.lower (vehicle_id_of veh) = Py.lower v
  | None => False
  end.

Global Instance vehicle_matches_dec v e : Decision (vehicle_matches v e).
Proof. unfold vehicle_matches. destruct (vehicle e); apply _. Defined.

(** A feed of two entities: a vehicle position of the vehicle ZG-8801-GR,
    and a trip update without vehicle. *)
Definition vehicle_entity : FeedEntity :=
  {| fe_id := "e1";
     trip_update := None;
     vehicle := Some {| vp_trip := Some {| td_trip_id := "T1"; td_route_id := "" |};
                        vp_vehicle := Some {| vd_id := "ZG-8801-GR" |};
                        vp_stop_id := "" |} |}.

Definition trip_update_entity : FeedEntity :=
  {| fe_id := "e2";
     trip_update := Some {| tu_trip := Some {| td_trip_id := "T2"; td_route_id := "" |};
                            stop_time_update := [ {| stu_stop_id := "S"; stu_stop_sequence := 1 |} ] |};
     vehicle := None |}.

Definition sample_feed : FeedMessage :=
  {| entity := [vehicle_entity; trip_update_entity] |}.

(** ** Vocabulary of the statements on the static schedule *)

(** The seconds since midnight of the query time. *)
Definition query_seconds (user_dt : Py.datetime) : Z :=
  Py.hour user_dt * 3600 + Py.minute user_dt * 60 + Py.second user_dt.

(** The rows of [stop_times] at the stop [sid]. *)
Definition stop_rows (stop_times : frame stop_time_row) (sid : string)
    : list stop_time_row :=
  List.filter (λ s, cell_eqb (st_stop_id s) sid) (rows stop_times).

(** The departure seconds of a stop-time row, when its [departure_time]
    parses. *)
Definition parsed_departure (s : stop_time_row) : option Z :=
  departure_time s ≫= time_str_to_seconds.

(** The rows of the stop joined with their trips, before any filter. *)
Definition joined (trips : frame trip_row) (sts : list stop_time_row)
    : list merged_row :=
  merge_left (zip sts (apply_infer (map parsed_departure sts))) (rows trips).

Definition with_delta (user_dt : Py.datetime) (m : merged_row) : upcoming_row :=
  UpcomingRow m (delta_of (query_seconds user_dt) (m_dep_sec m)).

(** The cell holds a service id of the set. *)
Definition in_service (active : gset string) (c : cell) : Prop :=
  ∃ v, c = Some v ∧ v ∈ active.

Global Instance in_service_dec active c : Decision (in_service active c).
Proof.
  destruct c as [v|].
  - destruct (decide (v ∈ active)) as [H|H].
    + left. by exists v.
    + right. intros (w & [= <-] & Hw). by apply H.
  - right. by intros (w & [=] & _).
Defined.






Definition midnight : Py.datetime :=
  Py.Datetime (Py.Date 2024 6 10) 0 0 0.

(** Two trips of route R1 and one of route R2, and the departures of
    the stop S: one after midnight of the service day, two in the morning. *)
Definition sample_trips : frame trip_row :=
  Frame ["route_id"; "service_id"; "trip_id"; "trip_headsign"]
    [TripRow (Some "T1") (Some "R1") (Some "A") (Some "Centar");
     TripRow (Some "T2") (Some "R1") (Some "B") (Some "Centar");
     TripRow (Some "T3") (Some "R2") (Some "A") None].

Definition sample_stop_times : frame stop_time_row :=
  Frame ["trip_id"; "arrival_time"; "departure_time"; "stop_id"; "stop_sequence"]
    [StopTimeRow (Some "T1") (Some "S") (Some "24:04:00") (Some "24:05:00") (Some "1");
     StopTimeRow (Some "T2") (Some "S") (Some "08:04:00") (Some "08:05:00") (Some "1");
     StopTimeRow (Some "T3") (Some "S") (Some "07:50:00") (Some "07:54:59") (Some "2")].

(** ** More of the program

    The pure parts of the functions that read the console or a file: the
    line parser of [load_voznipark], the search of [search_by_vehicle], the
    choice of a result by index in [search_by_route] and
    [search_by_stop_name], and the time printed for a departure. *)

(** [sep.join(parts)]. *)
Definition str_join (sep : string) (parts : list string) : string :=
  String.concat sep parts.

(** [s.startswith(p)]. *)
Definition str_startswith (p s : string) : bool := String.prefix p s.

(** [needle in hay] on strings. *)
Fixpoint str_contains (needle hay : string) : bool :=
  String.prefix needle hay
  || match hay with
     | EmptyString => false
     | String _ r => str_contains needle r
     end.

(** [bool(s)] on a string. *)
Definition str_truthy (s : string) : bool := negb (String.eqb s "").

(** A dict of the list [load_voznipark] returns. *)
Record vozilo := Vozilo {
  garazni : option string;
  reg : option string;
  model : string;
  raw : string
}.

(** The body of the loop of [load_voznipark] on one line of the file:
    [None] when the line is skipped. *)
Definition voznipark_line (line : string) : option vozilo :=
  let s := Py.strip line in
  if negb (str_truthy s) || str_startswith "#" s then None
  else
    let parts := Py.split "/" s in
    if (3 <=? length parts)%nat then
      let garazni := Py.strip (nth 0 parts "") in
      let reg := Py.strip (nth 1 parts "") in
      let model := Py.strip (str_join "/" (drop 2 parts)) in
      Some (Vozilo (Some garazni) (Some reg) model s)
    else Some (Vozilo None None s s).

(** [load_voznipark], from the lines of the file; [None] stands for a file
    that does not exist or cannot be read, for which the function returns
    the empty list. *)
Definition load_voznipark (file : option (list string)) : list vozilo :=
  match file with
  | Some lines => omap voznipark_line lines
  | None => []
  end.

(** The test of the comprehension [found] of [search_by_vehicle]. *)
Definition vehicle_found (vid : string) (v : vozilo) : bool :=
  match garazni v with
  | Some g => str_truthy g && String.eqb g vid
  | None => false
  end
  || match reg v with
     | Some r => str_truthy r && str_contains (Py.lower vid) (Py.lower r)
     | None => false
     end
  || (str_truthy (raw v) && str_contains (Py.lower vid) (Py.lower (raw v))).

Definition found (voznipark : list vozilo) (vid : string) : list vozilo :=
  List.filter (vehicle_found vid) voznipark.

(** The choice of one result among several, in [search_by_stop_name] (lines
    510 to 528) and in [search_by_route] (lines 376 to 393): [sel] is the
    line typed at the prompt, which is read only when there are two results
    or more. *)
Inductive choice (A : Type) :=
  | Chosen (a : A)
  | NoResult
  | InvalidIndex
  | IndexError.
Arguments Chosen {A} _.
Arguments NoResult {A}.
Arguments InvalidIndex {A}.
Arguments IndexError {A}.

(** [results[idx]] on a list: a negative index counts from the end. *)
Definition py_index {A} (results : list A) (idx : Z) : option A :=
  let n := Z.of_nat (length results) in
  if 0 <=? idx then results !! Z.to_nat idx
  else if - n <=? idx then results !! Z.to_nat (n + idx)
  else None.

Definition choose {A} (results : list A) (sel : string) : choice A :=
  match results with
  | [] => NoResult
  | [r] => Chosen r
  | _ =>
      let sel := Py.strip sel in
      let idx := if str_truthy sel then default 0 (Py.int sel) else 0 in
      if Z.of_nat (length results) <=? idx then InvalidIndex
      else match py_index results idx with
           | Some r => Chosen r
           | None => IndexError
           end
  end.

(** [f"{n:02d}"]: the decimal numeral of [n], with a zero before a single
    digit. *)
Definition format_02d (n : Z) : string :=
  if (0 <=? n) && (n <? 10) then String "0" (pretty n) else pretty n.

(** The time printed for a row of [upcoming] (lines 489 and 490); [None] is
    the [ValueError] of [int] on NaN. *)
Definition dep_hhmm (x : dep_cell) : option string :=
  match x with
  | DepNone => Some "-"
  | DepNaN => None
  | DepNum dep =>
      Some (format_02d (dep / 3600) +:+ ":" +:+ format_02d ((dep mod 3600) / 60))
  end.

(** ** Vocabulary of the further statements *)

(** The entity has a trip update with a stop time update at the stop. *)
Definition stop_matches (s : string) (e : FeedEntity) : Prop :=
  match trip_update e with
  | Some tu => Exists (λ stu, stu_stop_id stu = s) (stop_time_update tu)
  | None => False
  end.

Global Instance stop_matches_dec s e : Decision (stop_matches s e).
Proof. unfold stop_matches. destruct (trip_update e); apply _. Defined.

(** The entity is matched by a vehicle filter and a stop filter given
    together: by the vehicle when it has one, else by the stop. *)
Definition vehicle_or_stop_matches (v s : string) (e : FeedEntity) : Prop :=
  match vehicle e with
  | Some _ => vehicle_matches v e
  | None => stop_matches s e
  end.

Global Instance vehicle_or_stop_matches_dec v s e :
  Decision (vehicle_or_stop_matches v s e).
Proof. unfold vehicle_or_stop_matches. destruct (vehicle e); apply _. Defined.

(** [needle] occurs in [hay]. *)
Definition substring_of (needle hay : string) : Prop :=
  ∃ a b, hay = a +:+ needle +:+ b.

(** The number of occurrences of a character. *)
Fixpoint count_char (c : ascii) (s : string) : nat :=
  match s with
  | EmptyString => 0
  | String x r => ((if Ascii.eqb x c then 1 else 0) + count_char c r)%nat
  end.

(** Ascending order of the stops of a schedule by the text of their
    sequence. *)
Definition by_seq (a b : stop_entry) : Prop := cell_le (se_seq a) (se_seq b).


(** What a stop entry shows of a row of [stop_times]. *)
Definition stop_time_fields (s : stop_time_row) : cell * cell * cell * cell :=
  (st_stop_id s, arrival_time s, departure_time s, stop_sequence s).

Definition stop_entry_fields (e : stop_entry) : cell * cell * cell * cell :=
  (se_stop_id e, se_arrival e, se_departure e, se_seq e).

(** The rows of [stop_times] of a trip; a NaN trip id has none. *)
Definition rows_of_trip (stop_times : frame stop_time_row) (k : cell)
    : list stop_time_row :=
  filter (λ s, is_Some k ∧ st_trip_id s = k) (rows stop_times).



(** * Properties *)

(** ** Lists and cells *)

Lemma elem_of_List_filter {A} (f : A → bool) (l : list A) (x : A) :
  x ∈ List.filter f l ↔ x ∈ l ∧ f x = true.
Proof. rewrite !list_elem_of_In. apply filter_In. Qed.

Lemma astype_str_eqb (c : cell) (v : string) :
  v ≠ "nan" → String.eqb (astype_str c) v = true ↔ c = Some v.
Proof.
  intros Hv. rewrite String.eqb_eq. destruct c as [x|]; simpl; split;
    intros H; congruence.
Qed.

Lemma date_leb_le (a b : Py.date) : Py.date_leb a b = true ↔ date_le a b.
Proof.
  unfold Py.date_leb, date_le.
  rewrite !orb_true_iff, !andb_true_iff, !orb_true_iff, !andb_true_iff.
  rewrite !Z.ltb_lt, !Z.eqb_eq, Z.leb_le. tauto.
Qed.

Lemma weekday_range (d : Py.date) : 0 ≤ Py.weekday d < 7.
Proof. unfold Py.weekday. apply Z.mod_pos_bound. lia. Qed.


(** ** [time_str_to_seconds] *)

Section TimeStr.

Lemma digit_not_space c d : Py.digit_of c = Some d → Py.is_space c = false.
Proof.
  unfold Py.digit_of, Py.is_space. intros H.
  destruct (_ && _) eqn:E in H; [|discriminate].
  apply andb_true_iff in E as [E1%Nat.leb_le E2%Nat.leb_le].
  repeat (apply orb_false_iff; split).
  - apply Nat.eqb_neq. lia.
  - apply andb_false_iff. right. apply Nat.leb_gt. lia.
  - apply andb_false_iff. right. apply Nat.leb_gt. lia.
Qed.

Lemma digit_of_value c d :
  Py.digit_of c = Some d → d = Z.of_nat (nat_of_ascii c) - 48.
Proof.
  unfold Py.digit_of. destruct (_ && _); [|discriminate]. congruence.
Qed.

Lemma digit_not_special c d (x : ascii) :
  Py.digit_of c = Some d → Py.digit_of x = None → Ascii.eqb c x = false.
Proof.
  intros Hc Hx. destruct (Ascii.eqb_spec c x) as [->|]; congruence.
Qed.

Lemma split_digits a :
  all_digits a = true → Py.split ":" a = [a].
Proof.
  induction a as [|c a IH]; simpl; [done|].
  destruct (Py.digit_of c) as [d|] eqn:Hd; [|discriminate].
  intros Ha. rewrite (digit_not_special c d ":" Hd eq_refl).
  by rewrite (IH Ha).
Qed.

Lemma split_digits_app a r :
  all_digits a = true →
  Py.split ":" (a +:+ String ":" r) = a :: Py.split ":" r.
Proof.
  induction a as [|c a IH]; simpl; [done|].
  destruct (Py.digit_of c) as [d|] eqn:Hd; [|discriminate].
  intros Ha. rewrite (digit_not_special c d ":" Hd eq_refl).
  by rewrite (IH Ha).
Qed.

Lemma lstrip_digits s : all_digits s = true → Py.lstrip s = s.
Proof.
  destruct s as [|c s]; simpl; [done|].
  destruct (Py.digit_of c) as [d|] eqn:Hd; [|discriminate].
  by rewrite (digit_not_space c d Hd).
Qed.

Lemma rstrip_digits s : all_digits s = true → Py.rstrip s = s.
Proof.
  induction s as [|c s IH]; simpl; [done|].
  destruct (Py.digit_of c) as [d|] eqn:Hd; [|discriminate].
  intros Hs. rewrite (IH Hs). destruct s; [|done].
  by rewrite (digit_not_space c d Hd).
Qed.

Lemma count_digits_all s :
  all_digits s = true → Py.count_digits s = String.length s.
Proof.
  induction s as [|c s IH]; simpl; [done|].
  destruct (Py.digit_of c); [|discriminate]. intros Hs. by rewrite (IH Hs).
Qed.

Lemma int_digits_all s acc :
  all_digits s = true →
  Py.int_digits s acc true
  = Some (fold_left (λ acc c, 10 * acc + (Z.of_nat (nat_of_ascii c) - 48))
            (list_ascii_of_string s) acc).
Proof.
  revert acc. induction s as [|c s IH]; intros acc; simpl; [done|].
  destruct (Py.digit_of c) as [d|] eqn:Hd; [|discriminate].
  intros Hs. rewrite (digit_not_special c d "_" Hd eq_refl).
  rewrite (IH _ Hs). by rewrite (digit_of_value c d Hd).
Qed.

Lemma int_decimal_literal s :
  decimal_literal s = true → Py.int s = Some (decimal_value s).
Proof.
  unfold decimal_literal. intros H.
  apply andb_true_iff in H as [H Hlen]. apply andb_true_iff in H as [Hne Hs].
  apply Nat.leb_le in Hlen.
  unfold Py.int, Py.strip. rewrite (lstrip_digits s Hs), (rstrip_digits s Hs).
  destruct s as [|c s]; [discriminate|].
  pose proof Hs as Hs'. simpl in Hs'.
  destruct (Py.digit_of c) as [d|] eqn:Hd; [|discriminate].
  assert (Hbody :
    (let '(neg, body) :=
       match String c s with
       | String "-" r => (true, r)
       | String "+" r => (false, r)
       | _ => (false, String c s)
       end in
     if (Py.int_max_str_digits <? Py.count_digits body)%nat then None
     else match Py.int_digits body 0 false with
          | Some n => Some (if neg then - n else n)
          | None => None
          end)
    = (if (Py.int_max_str_digits <? Py.count_digits (String c s))%nat then None
       else match Py.int_digits (String c s) 0 false with
            | Some n => Some n
            | None => None
            end)).
  { destruct c as [[] [] [] [] [] [] [] []]; try discriminate Hd; reflexivity. }
  rewrite Hbody. rewrite (count_digits_all _ Hs).
  destruct (Nat.ltb_spec Py.int_max_str_digits (String.length (String c s)));
    [lia|].
  change (Py.int_digits (String c s) 0 false)
    with (if Ascii.eqb c "_" then None
          else match Py.digit_of c with
               | Some d => Py.int_digits s (10 * 0 + d) true
               | None => None
               end).
  rewrite (digit_not_special c d "_" Hd eq_refl), Hd.
  rewrite (int_digits_all s _ Hs'). unfold decimal_value. simpl.
  by rewrite (digit_of_value c d Hd).
Qed.

End TimeStr.

(** C6. The service-time parser maps [H:M:S], each field a decimal literal,
    to [h * 3600 + m * 60 + s] seconds, whatever the size of the hour; in
    particular ["25:10:00"] gives 90600 and ["08:05:00"] gives 29100. *)
Theorem time_str_to_seconds_hms :
  (∀ H M S : string,
     decimal_literal H = true → decimal_literal M = true →
     decimal_literal S = true →
     time_str_to_seconds (H +:+ String ":" (M +:+ String ":" S))
     = Some (decimal_value H * 3600 + decimal_value M * 60 + decimal_value S))
  ∧ time_str_to_seconds "25:10:00" = Some 90600
  ∧ time_str_to_seconds "08:05:00" = Some 29100.
Proof.
  split; [|split; reflexivity].
  intros H M S HH HM HS. unfold time_str_to_seconds.
  assert (∀ s, decimal_literal s = true → all_digits s = true) as Hall.
  { unfold decimal_literal. intros s Hs.
    apply andb_true_iff in Hs as [Hs _]. by apply andb_true_iff in Hs as [_ Hs]. }
  rewrite (split_digits_app H _ (Hall _ HH)).
  rewrite (split_digits_app M _ (Hall _ HM)).
  rewrite (split_digits S (Hall _ HS)).
  rewrite (int_decimal_literal _ HH), (int_decimal_literal _ HM),
    (int_decimal_literal _ HS).
  reflexivity.
Qed.

Lemma time_str_to_seconds_hms_witness :
  decimal_literal "25" = true ∧ decimal_literal "10" = true
  ∧ decimal_literal "00" = true
  ∧ time_str_to_seconds "25:10:00" = Some (25 * 3600 + 10 * 60 + 0).
Proof.
  split; [reflexivity|]. split; [reflexivity|]. split; [reflexivity|].
  exact (proj1 time_str_to_seconds_hms "25" "10" "00" eq_refl eq_refl eq_refl).
Defined.

(** ** [active_services] *)

Section CalendarProperties.

Variable to_datetime : string → option Py.date.

Lemma valid_date_spec target r :
  valid_date to_datetime target r = true
  ↔ date_le (start_bound to_datetime r) target
    ∧ date_le target (end_bound to_datetime r).
Proof.
  unfold valid_date, start_bound, end_bound, fillna, earliest, latest.
  rewrite andb_true_iff, !date_leb_le.
  by destruct (to_date _ (start_date r)), (to_date _ (end_date r)).
Qed.

Lemma valid_weekday_spec wd r :
  valid_weekday wd r = true ↔ weekdays wd r = Some "1".
Proof. unfold valid_weekday. by apply astype_str_eqb. Qed.

Lemma elem_of_base calendar target s :
  s ∈ dropna_tolist cal_service_id
        (List.filter
           (λ r, valid_date to_datetime target r
                 && valid_weekday (Py.weekday target) r)
           calendar)
  ↔ ∃ r, r ∈ calendar ∧ base_rule to_datetime target s r.
Proof.
  unfold dropna_tolist, base_rule. rewrite list_elem_of_omap.
  split.
  - intros (r & Hr & Hs). apply elem_of_List_filter in Hr as [Hr Hm].
    apply andb_true_iff in Hm as [Hd%valid_date_spec Hw%valid_weekday_spec].
    exists r. tauto.
  - intros (r & Hr & Hs & Hw & Hd1 & Hd2). exists r. split; [|done].
    apply elem_of_List_filter. split; [done|].
    apply andb_true_iff. split.
    + by apply valid_date_spec.
    + by apply valid_weekday_spec.
Qed.

Lemma elem_of_exceptions calendar_dates target kind s :
  kind ≠ "nan" →
  s ∈ dropna_tolist cd_service_id
        (List.filter (λ e, String.eqb (astype_str (exception_type e)) kind)
           (List.filter
              (λ e, bool_decide (to_date to_datetime (cd_date e) = Some target))
              calendar_dates))
  ↔ ∃ e, e ∈ calendar_dates ∧ exception_on to_datetime target kind s e.
Proof.
  intros Hk. unfold dropna_tolist, exception_on. rewrite list_elem_of_omap.
  split.
  - intros (e & He & Hs). apply elem_of_List_filter in He as [He Ht].
    apply elem_of_List_filter in He as [He Hd%bool_decide_eq_true].
    apply astype_str_eqb in Ht; [|done]. exists e. tauto.
  - intros (e & He & Hs & Hd & Ht). exists e. split; [|done].
    apply elem_of_List_filter. split.
    + apply elem_of_List_filter. split; [done|]. by apply bool_decide_eq_true.
    + by apply astype_str_eqb.
Qed.

Lemma elem_of_active_services calendar calendar_dates target s :
  s ∈ active_services to_datetime calendar calendar_dates target
  ↔ ((∃ r, r ∈ default [] calendar ∧ base_rule to_datetime target s r)
     ∨ (∃ e, e ∈ default [] calendar_dates
             ∧ exception_on to_datetime target "1" s e))
    ∧ ¬ (∃ e, e ∈ default [] calendar_dates
              ∧ exception_on to_datetime target "2" s e).
Proof.
  unfold active_services, set_update, set_difference_update.
  assert (∀ A (P : A → Prop), (∃ x, x ∈ [] ∧ P x) ↔ False) as Hnil.
  { intros A P. split; [|done]. by intros (x & ?%not_elem_of_nil & _). }
  pose proof (not_elem_of_empty (C:=gset string) s) as Hempty.
  destruct calendar as [calendar|], calendar_dates as [calendar_dates|]; simpl;
    rewrite ?elem_of_difference, ?elem_of_union, ?elem_of_list_to_set,
      ?elem_of_base, ?elem_of_exceptions, ?Hnil by done;
    tauto.
Qed.


(** C2. A service that has an Added and a Removed exception on the target
    date is not active, in whatever order the exception rows come. *)
Theorem removal_dominates calendar calendar_dates calendar_dates' target s e1 e2 :
  calendar_dates ≡ₚ calendar_dates' →
  e1 ∈ calendar_dates → e2 ∈ calendar_dates →
  exception_on to_datetime target "1" s e1 →
  exception_on to_datetime target "2" s e2 →
  s ∉ active_services to_datetime calendar (Some calendar_dates') target.
Proof.
  intros Hp _ H2 _ Hr. rewrite elem_of_active_services. simpl.
  intros [_ Hn]. apply Hn. exists e2. by rewrite <- Hp.
Qed.

(** C3, amended. A rule whose start or end date is missing or does not
    parse is given 1900-01-01 or 2900-01-01 on that side, so that the
    missing bound never excludes it on a date from 1900-01-01 to
    2900-01-01. *)
Theorem missing_bound_never_excludes calendar calendar_dates target r s :
  r ∈ calendar →
  cal_service_id r = Some s →
  weekdays (Py.weekday target) r = Some "1" →
  date_le (Py.Date 1900 1 1) target →
  date_le target (Py.Date 2900 1 1) →
  (to_date to_datetime (start_date r) = None
   ∨ ∃ d, to_date to_datetime (start_date r) = Some d ∧ date_le d target) →
  (to_date to_datetime (end_date r) = None
   ∨ ∃ d, to_date to_datetime (end_date r) = Some d ∧ date_le target d) →
  (∀ e, e ∈ default [] calendar_dates →
        ¬ exception_on to_datetime target "2" s e) →
  s ∈ active_services to_datetime (Some calendar) calendar_dates target.
Proof.
  intros Hr Hs Hw Hlo Hhi Hstart Hend Hrem.
  apply elem_of_active_services. split;
    [|intros (e & He & Hx); by apply (Hrem e)].
  left. exists r. split; [done|]. unfold base_rule, start_bound, end_bound.
  repeat split; try done.
  - by destruct Hstart as [->|(d & -> & ?)].
  - by destruct Hend as [->|(d & -> & ?)].
Qed.

End CalendarProperties.

Lemma removal_dominates_witness :
  [added_B; removed_B] ≡ₚ [removed_B; added_B]
  ∧ exception_on to_datetime_Ymd (Py.Date 2024 6 10) "1" "B" added_B
  ∧ exception_on to_datetime_Ymd (Py.Date 2024 6 10) "2" "B" removed_B
  ∧ "B" ∉ active_services to_datetime_Ymd (Some [monday_rule_A])
            (Some [removed_B; added_B]) (Py.Date 2024 6 10).
Proof.
  assert (exception_on to_datetime_Ymd (Py.Date 2024 6 10) "1" "B" added_B) as Ha.
  { repeat split; reflexivity. }
  assert (exception_on to_datetime_Ymd (Py.Date 2024 6 10) "2" "B" removed_B) as Hr.
  { repeat split; reflexivity. }
  split; [apply perm_swap|]. split; [exact Ha|]. split; [exact Hr|].
  apply (removal_dominates to_datetime_Ymd (Some [monday_rule_A])
           [added_B; removed_B] [removed_B; added_B] (Py.Date 2024 6 10) "B"
           added_B removed_B).
  - apply perm_swap.
  - apply list_elem_of_In. simpl. tauto.
  - apply list_elem_of_In. simpl. tauto.
  - exact Ha.
  - exact Hr.
Defined.

Lemma missing_bound_never_excludes_witness :
  to_date to_datetime_Ymd (end_date open_ended_rule) = None
  ∧ date_le (Py.Date 2899 12 31) (Py.Date 2900 1 1)
  ∧ "A" ∈ active_services to_datetime_Ymd (Some [open_ended_rule]) None
            (Py.Date 2899 12 31).
Proof.
  split; [reflexivity|]. split; [by apply date_leb_le|].
  apply (missing_bound_never_excludes to_datetime_Ymd [open_ended_rule] None
           (Py.Date 2899 12 31) open_ended_rule "A").
  - apply list_elem_of_In. simpl. tauto.
  - reflexivity.
  - reflexivity.
  - by apply date_leb_le.
  - by apply date_leb_le.
  - right. exists (Py.Date 2024 1 1). split; [reflexivity|].
    by apply date_leb_le.
  - left. reflexivity.
  - intros e He. by apply not_elem_of_nil in He.
Defined.

(** The end-to-end scenario of the calendar: the rule alone, then with the
    added exception, then with the removed one as well. *)
Example active_services_scenario :
  active_services to_datetime_Ymd (Some [monday_rule_A]) None (Py.Date 2024 6 10)
  = {["A"]}
  ∧ active_services to_datetime_Ymd (Some [monday_rule_A]) (Some [added_B])
      (Py.Date 2024 6 10)
    = {["A"; "B"]}
  ∧ active_services to_datetime_Ymd (Some [monday_rule_A])
      (Some [added_B; removed_B]) (Py.Date 2024 6 10)
    = {["A"]}.
Proof. repeat split; by vm_compute. Qed.

(** C3 as stated fails: the latest sentinel is 2900-01-01, not 2900-12-31.
    On 2900-06-15 a rule for every weekday that has no end date is not
    active. *)
Lemma latest_sentinel_counterexample :
  to_date to_datetime_Ymd (end_date open_ended_rule) = None
  ∧ weekdays (Py.weekday (Py.Date 2900 6 15)) open_ended_rule = Some "1"
  ∧ date_le (start_bound to_datetime_Ymd open_ended_rule) (Py.Date 2900 6 15)
  ∧ date_le (Py.Date 2900 6 15) (Py.Date 2900 12 31)
  ∧ Py.valid_date (Py.Date 2900 6 15) = true
  ∧ "A" ∉ active_services to_datetime_Ymd (Some [open_ended_rule]) None
            (Py.Date 2900 6 15).
Proof.
  split; [reflexivity|]. split; [reflexivity|].
  split; [by apply date_leb_le|].
  split; [by apply date_leb_le|].
  split; [reflexivity|].
  rewrite elem_of_active_services. simpl.
  intros [[(r & Hr & _ & _ & _ & Hend)|(e & He & _)] _].
  - apply list_elem_of_singleton in Hr as ->.
    by apply date_leb_le in Hend.
  - by apply not_elem_of_nil in He.
Qed.

(** ** Dicts made from a frame *)

(** A key is mapped to the value of the last row that has it. *)
Lemma to_dict_lookup {row} (key value : row → cell) (l : list row) (k : string) :
  to_dict key value l !! k = value <$> last (filter (λ r, key r = Some k) l).
Proof.
  unfold to_dict. induction l as [|x l IH] using rev_ind.
  - simpl. by rewrite lookup_empty.
  - rewrite fold_left_app, filter_app. simpl.
    destruct (key x) as [k'|] eqn:Hk.
    + destruct (decide (k' = k)) as [->|Hne].
      * rewrite lookup_insert_eq, filter_cons_True by done.
        by rewrite filter_nil, last_snoc.
      * rewrite lookup_insert_ne, filter_cons_False by congruence.
        by rewrite filter_nil, app_nil_r.
    + rewrite filter_cons_False by congruence.
      by rewrite filter_nil, app_nil_r.
Qed.

Lemma trip_to_route_lookup (trips : frame trip_row) (k : string) :
  has_column "trip_id" trips = true → has_column "route_id" trips = true →
  trip_to_route (Some trips) !! k
  = trip_route_id <$> last (filter (λ t, trip_id t = Some k) (rows trips)).
Proof.
  intros H1 H2. unfold trip_to_route. rewrite H1, H2. apply to_dict_lookup.
Qed.

(** ** [correlate] *)

Section Correlate.

(** The loop appends, in feed order, the entities its test accepts. *)
Lemma correlate_loop (P : FeedEntity → Prop) `{!∀ e, Decision (P e)}
    (d : gmap string cell) (route_id vehicle_id stop_id : option string) :
  (∀ acc e,
     correlate_step d route_id vehicle_id stop_id acc e
     = if decide (P e) then acc ++ [correlation_of e] else acc) →
  ∀ l acc,
    fold_left (correlate_step d route_id vehicle_id stop_id) l acc
    = acc ++ (correlation_of <$> filter P l).
Proof.
  intros Hstep l. induction l as [|e l IH]; intros acc; simpl.
  - by rewrite app_nil_r.
  - rewrite IH, Hstep, filter_cons. destruct (decide (P e)); [|done].
    by rewrite fmap_cons, <- app_assoc.
Qed.

Lemma truthy_Some s : s ≠ "" → Py.truthy (Some s) = true.
Proof. intros Hs. simpl. by apply negb_true_iff, String.eqb_neq. Qed.


Lemma step_trip e :
  match trip_update e ≫= tu_trip with
  | Some t => Some t
  | None => vehicle e ≫= vp_trip
  end = resolved_trip e.
Proof. reflexivity. Qed.

Lemma correlate_step_route trips r vehicle_id stop_id acc e :
  r ≠ "" →
  correlate_step (trip_to_route trips) (Some r) vehicle_id stop_id acc e
  = if decide (on_route trips r e) then acc ++ [correlation_of e] else acc.
Proof.
  intros Hr. unfold correlate_step, correlation_of.
  rewrite (truthy_Some r Hr), step_trip.
  destruct (decide (on_route trips r e)) as [H|H]; unfold on_route in H;
    destruct (resolved_trip e) as [t|]; simpl in *; try done.
  - by rewrite H, bool_decide_eq_true_2.
  - destruct (trip_to_route trips !! td_trip_id t) as [c|]; simpl; [|done].
    rewrite bool_decide_eq_false_2; [done|congruence].
Qed.


Lemma correlate_step_none d route_id vehicle_id stop_id acc e :
  Py.truthy route_id = false → Py.truthy vehicle_id = false →
  Py.truthy stop_id = false →
  correlate_step d route_id vehicle_id stop_id acc e = acc.
Proof. intros Hr Hv Hs. unfold correlate_step. by rewrite Hr, Hv, Hs. Qed.

End Correlate.

(** C7. With a route filter, [correlate] returns, in feed order, exactly the
    entities whose trip descriptor (that of the trip update, else that of the
    vehicle) has a trip id that the static trips map to the route. *)
Theorem correlate_by_route feed trips r vehicle_id stop_id :
  r ≠ "" →
  correlate feed trips (Some r) vehicle_id stop_id
  = correlation_of <$> filter (on_route trips r) (entity feed)
  ∧ filter (on_route trips r) (entity feed) `sublist_of` entity feed.
Proof.
  intros Hr. split; [|apply sublist_filter]. unfold correlate.
  rewrite (correlate_loop (on_route trips r)); [done|].
  intros acc e. by apply correlate_step_route.
Qed.

Lemma correlate_by_route_witness :
  "R1" ≠ ""
  ∧ correlate sample_feed
      (Some (Frame ["trip_id"; "route_id"]
               [TripRow (Some "T1") (Some "R1") None None;
                TripRow (Some "T2") (Some "R2") None None]))
      (Some "R1") None None
    = [correlation_of vehicle_entity].
Proof.
  split; [done|].
  rewrite (proj1 (correlate_by_route sample_feed _ "R1" None None
                    ltac:(done))).
  reflexivity.
Defined.



(** C10. Without a filter (no route, vehicle or stop id, or empty ones)
    [correlate] returns the empty list. *)
Theorem correlate_no_filter feed trips route_id vehicle_id stop_id :
  Py.truthy route_id = false → Py.truthy vehicle_id = false →
  Py.truthy stop_id = false →
  correlate feed trips route_id vehicle_id stop_id = [].
Proof.
  intros Hr Hv Hs. unfold correlate.
  induction (entity feed) as [|e l IH]; simpl; [done|].
  by rewrite correlate_step_none.
Qed.

Lemma correlate_no_filter_witness :
  Py.truthy None = false ∧ correlate sample_feed None None None None = [].
Proof.
  split; [reflexivity|].
  exact (correlate_no_filter sample_feed None None None None eq_refl eq_refl eq_refl).
Defined.

(** ** The departures of a stop *)

Section Upcoming.



Lemma num_geb_spec x bound :
  num_geb x bound = true ↔ ∃ d, x = Num d ∧ bound ≤ d.
Proof.
  destruct x as [z|]; simpl.
  - rewrite Z.leb_le. split; [by exists z|]. by intros (d & [= <-] & ?).
  - split; [done|]. by intros (d & [=] & _).
Qed.


Lemma sort_values_perm {row K} (R : relation K) `{!RelDecision R}
    (key : row → K) l :
  sort_values R key l ≡ₚ l.
Proof. unfold sort_values. apply merge_sort_Permutation. Qed.

(** The value of [dep_sec] in a row of the stop. *)
Lemma zip_fmap_elem {A B} (h : A → B) (l : list A) a b :
  (a, b) ∈ zip l (map h l) → a ∈ l ∧ b = h a.
Proof.
  induction l as [|x l IH]; simpl; [by intros ?%not_elem_of_nil|].
  intros [[= -> ->]|H]%elem_of_cons.
  - split; [left|done].
  - destruct (IH H). split; [by right|done].
Qed.

Lemma apply_infer_all_none l :
  Forall (λ o, o = None) l → apply_infer l = map (λ _, DepNone) l.
Proof.
  intros H. unfold apply_infer.
  replace (forallb _ l) with true; [done|]. symmetry.
  apply forallb_forall. intros o Ho%list_elem_of_In.
  apply bool_decide_eq_true. by eapply Forall_forall in H.
Qed.

Lemma apply_infer_some l z :
  Some z ∈ l →
  apply_infer l
  = map (λ o, match o with Some z => DepNum z | None => DepNaN end) l.
Proof.
  intros H. unfold apply_infer.
  replace (forallb _ l) with false; [done|]. symmetry.
  apply not_true_is_false. intros Hall.
  rewrite forallb_forall in Hall. apply list_elem_of_In in H.
  by apply Hall, bool_decide_eq_true in H.
Qed.

Lemma elem_of_merge_left sts trips m :
  m ∈ merge_left sts trips → (m_stop_time m, m_dep_sec m) ∈ sts.
Proof.
  unfold merge_left. intros ([s d] & Hm & Hs)%list_elem_of_bind.
  destruct (List.filter _ trips) as [|t ts].
  - by apply list_elem_of_singleton in Hm as ->.
  - by apply list_elem_of_fmap in Hm as (t' & -> & _).
Qed.

Lemma elem_of_joined trips sts m :
  m ∈ joined trips sts →
  m_stop_time m ∈ sts
  ∧ match parsed_departure (m_stop_time m) with
    | Some D => m_dep_sec m = DepNum D
    | None => m_dep_sec m = DepNaN ∨ m_dep_sec m = DepNone
    end.
Proof.
  unfold joined. intros H%elem_of_merge_left. revert H.
  destruct (decide (Forall (λ o, o = None) (map parsed_departure sts)))
    as [Hall|Hsome].
  - rewrite (apply_infer_all_none _ Hall), map_map.
    intros [Hs ->]%zip_fmap_elem. split; [done|].
    rewrite Forall_forall in Hall.
    rewrite (Hall (parsed_departure (m_stop_time m))); [by right|].
    apply list_elem_of_fmap. by exists (m_stop_time m).
  - apply not_Forall_Exists in Hsome; [|apply _].
    apply Exists_exists in Hsome as ([z|] & Hz & Hne); [|by destruct Hne].
    rewrite (apply_infer_some _ z Hz), map_map.
    intros [Hs ->]%zip_fmap_elem. split; [done|].
    destruct (parsed_departure (m_stop_time m)); [done|by left].
Qed.


Lemma List_filter_filter {A} (f : A → bool) (P : A → Prop)
    `{!∀ x, Decision (P x)} (l : list A) :
  (∀ x, f x = true ↔ P x) → List.filter f l = filter P l.
Proof.
  intros Hf. induction l as [|x l IH]; simpl; [done|].
  rewrite filter_cons, IH. destruct (decide (P x)) as [HP|HP].
  - by rewrite (proj2 (Hf x) HP).
  - destruct (f x) eqn:E; [|done]. by apply Hf in E.
Qed.

Lemma isin_spec active c : isin active c = true ↔ in_service active c.
Proof.
  unfold in_service. destruct c as [v|]; simpl.
  - rewrite bool_decide_eq_true. split; [by exists v|].
    by intros (w & [= <-] & ?).
  - split; [done|]. by intros (w & [=] & _).
Qed.

(** [merged], as a selection of the joined rows. *)
Lemma merged_with_delta_spec trips sts user_dt has_service_id active :
  merged_with_delta trips sts user_dt has_service_id active
  = with_delta user_dt
    <$> (if has_service_id && bool_decide (active ≠ ∅)
         then filter (λ m, in_service active (m_service_id m)) (joined trips sts)
         else joined trips sts).
Proof.
  unfold merged_with_delta. fold (joined trips sts).
  destruct (has_service_id && bool_decide (active ≠ ∅)); [|done].
  by rewrite (List_filter_filter _ (λ m, in_service active (m_service_id m)))
    by (intros m; apply isin_spec).
Qed.

Lemma elem_of_merged trips sts user_dt has_service_id active r :
  r ∈ merged_with_delta trips sts user_dt has_service_id active →
  u_row r ∈ joined trips sts
  ∧ delta r = delta_of (query_seconds user_dt) (m_dep_sec (u_row r)).
Proof.
  rewrite merged_with_delta_spec. intros (m & -> & Hm)%list_elem_of_fmap.
  split; [|done]. simpl.
  destruct (has_service_id && _); [|done].
  by apply list_elem_of_filter in Hm as [_ Hm].
Qed.

(** Past its guards, [upcoming] is the head of the sorted selection. *)
Lemma upcoming_unfold trips stop_times sid user_dt active :
  has_column "departure_time" stop_times = true →
  upcoming trips stop_times sid user_dt active
  = take 50
      (sort_values num_le delta
         (List.filter (λ r, num_geb (delta r) (-300))
            (merged_with_delta trips (stop_rows stop_times sid) user_dt
               (merged_has_service_id stop_times) active))).
Proof.
  intros Hcol. unfold upcoming. fold (stop_rows stop_times sid).
  rewrite Hcol. destruct (stop_rows stop_times sid); [|done].
  unfold merged_with_delta. simpl.
  by destruct (merged_has_service_id stop_times && bool_decide (active ≠ ∅)).
Qed.

End Upcoming.





(** The departure at 24:05:00 of the service day, asked at midnight, has
    the delta 86700 and comes after the departures of the morning. *)
Example upcoming_after_midnight :
  map (λ r, (st_trip_id (m_stop_time (u_row r)), delta r))
    (upcoming sample_trips sample_stop_times "S" midnight ∅)
  = [(Some "T3", Num 28499); (Some "T2", Num 29100); (Some "T1", Num 86700)].
Proof. reflexivity. Qed.




(** ** The calendar filter of the schedule builder and of the projector *)

Lemma cell_eqb_spec (c : cell) (v : string) : cell_eqb c v = true ↔ c = Some v.
Proof. apply bool_decide_eq_true. Qed.

Lemma get_static_trips_for_route_spec trips stop_times stops route_id active :
  get_static_trips_for_route (Some trips) (Some stop_times) stops route_id active
  = schedule_of_trip stop_times (stop_names_of stops)
    <$> (if has_column "service_id" trips && bool_decide (active ≠ ∅)
         then filter (λ t, trip_route_id t = Some route_id
                           ∧ in_service active (trip_service_id t))
                (rows trips)
         else filter (λ t, trip_route_id t = Some route_id) (rows trips)).
Proof.
  unfold get_static_trips_for_route.
  rewrite (List_filter_filter (λ t, cell_eqb (trip_route_id t) route_id)
             (λ t, trip_route_id t = Some route_id))
    by (intros t; apply cell_eqb_spec).
  destruct (has_column "service_id" trips && bool_decide (active ≠ ∅)); [|done].
  rewrite (List_filter_filter (λ t, isin active (trip_service_id t))
             (λ t, in_service active (trip_service_id t)))
    by (intros t; apply isin_spec).
  rewrite list_filter_filter. f_equal. apply list_filter_iff. tauto.
Qed.

(** C9. With an empty active set no calendar filter is applied: the
    schedule builder keeps every trip of the route, the projector every
    joined row of the stop. With a non-empty one they keep the trips and
    rows whose service id is in the set. *)
Theorem empty_active_set_is_no_filter :
  (∀ trips stop_times stops route_id,
     get_static_trips_for_route (Some trips) (Some stop_times) stops route_id ∅
     = schedule_of_trip stop_times (stop_names_of stops)
       <$> filter (λ t, trip_route_id t = Some route_id) (rows trips))
  ∧ (∀ trips stop_times stops route_id active,
       active ≠ ∅ → has_column "service_id" trips = true →
       get_static_trips_for_route (Some trips) (Some stop_times) stops route_id
         active
       = schedule_of_trip stop_times (stop_names_of stops)
         <$> filter (λ t, trip_route_id t = Some route_id
                          ∧ in_service active (trip_service_id t))
               (rows trips))
  ∧ (∀ trips sts user_dt has_service_id,
       merged_with_delta trips sts user_dt has_service_id ∅
       = with_delta user_dt <$> joined trips sts)
  ∧ (∀ trips sts user_dt active,
       active ≠ ∅ →
       merged_with_delta trips sts user_dt true active
       = with_delta user_dt
         <$> filter (λ m, in_service active (m_service_id m)) (joined trips sts)).
Proof.
  split; [|split; [|split]].
  - intros trips stop_times stops route_id.
    rewrite get_static_trips_for_route_spec.
    by rewrite (bool_decide_eq_false_2 (∅ ≠ ∅)), andb_false_r by tauto.
  - intros trips stop_times stops route_id active Hne Hcol.
    rewrite get_static_trips_for_route_spec.
    by rewrite Hcol, (bool_decide_eq_true_2 _ Hne).
  - intros trips sts user_dt has_service_id.
    rewrite merged_with_delta_spec.
    by rewrite (bool_decide_eq_false_2 (∅ ≠ ∅)), andb_false_r by tauto.
  - intros trips sts user_dt active Hne.
    rewrite merged_with_delta_spec.
    by rewrite (bool_decide_eq_true_2 _ Hne).
Qed.

Lemma empty_active_set_is_no_filter_witness :
  ({["A"]} : gset string) ≠ ∅
  ∧ has_column "service_id" sample_trips = true
  ∧ get_static_trips_for_route (Some sample_trips) (Some sample_stop_times) None
      "R1" {["A"]}
    = schedule_of_trip sample_stop_times (stop_names_of None)
      <$> filter (λ t, trip_route_id t = Some "R1"
                       ∧ in_service {["A"]} (trip_service_id t))
            (rows sample_trips).
Proof.
  assert (({["A"]} : gset string) ≠ ∅) as Hne.
  { intros Heq. apply (not_elem_of_empty (C:=gset string) "A").
    rewrite <- Heq. by apply elem_of_singleton. }
  split; [exact Hne|]. split; [reflexivity|].
  exact (proj1 (proj2 empty_active_set_is_no_filter) sample_trips
           sample_stop_times None "R1" {["A"]} Hne eq_refl).
Defined.

(** * Further properties *)

(** ** More on [time_str_to_seconds] *)

Lemma decimal_literal_digits s : decimal_literal s = true → all_digits s = true.
Proof.
  unfold decimal_literal. intros Hs.
  apply andb_true_iff in Hs as [Hs _]. by apply andb_true_iff in Hs as [_ Hs].
Qed.

Lemma parse_hms H M S :
  decimal_literal H = true → decimal_literal M = true →
  decimal_literal S = true →
  time_str_to_seconds (H +:+ String ":" (M +:+ String ":" S))
  = Some (decimal_value H * 3600 + decimal_value M * 60 + decimal_value S).
Proof.
  intros HH HM HS. unfold time_str_to_seconds.
  rewrite (split_digits_app H _ (decimal_literal_digits _ HH)).
  rewrite (split_digits_app M _ (decimal_literal_digits _ HM)).
  rewrite (split_digits S (decimal_literal_digits _ HS)).
  by rewrite (int_decimal_literal _ HH), (int_decimal_literal _ HM),
    (int_decimal_literal _ HS).
Qed.

(** X1. A time of two fields [H:M] is read as [h * 3600 + m * 60]. *)
Theorem time_str_to_seconds_hm H M :
  decimal_literal H = true → decimal_literal M = true →
  time_str_to_seconds (H +:+ String ":" M)
  = Some (decimal_value H * 3600 + decimal_value M * 60).
Proof.
  intros HH HM. unfold time_str_to_seconds.
  rewrite (split_digits_app H _ (decimal_literal_digits _ HH)).
  rewrite (split_digits M (decimal_literal_digits _ HM)).
  rewrite (int_decimal_literal _ HH), (int_decimal_literal _ HM). simpl.
  by rewrite Z.add_0_r.
Qed.

Lemma time_str_to_seconds_hm_witness :
  decimal_literal "8" = true ∧ decimal_literal "05" = true
  ∧ time_str_to_seconds "8:05" = Some (8 * 3600 + 5 * 60).
Proof.
  split; [reflexivity|]. split; [reflexivity|].
  exact (time_str_to_seconds_hm "8" "05" eq_refl eq_refl).
Defined.

Lemma length_split sep s : length (Py.split sep s) = S (count_char sep s).
Proof.
  induction s as [|c s IH]; simpl; [done|].
  destruct (Ascii.eqb c sep); simpl; [by rewrite IH|].
  destruct (Py.split sep s); simpl in *; lia.
Qed.

(** X2. A string is read as a time only if it has one or two colons: a
    string without colon, or with three or more, gives [None]. *)
Theorem time_str_to_seconds_colons t n :
  time_str_to_seconds t = Some n →
  count_char ":" t = 1%nat ∨ count_char ":" t = 2%nat.
Proof.
  unfold time_str_to_seconds. intros H.
  pose proof (length_split ":" t) as Hlen.
  destruct (Py.split ":" t) as [|p0 [|p1 [|p2 [|p3 l]]]]; simpl in *;
    try discriminate; lia.
Qed.

Lemma time_str_to_seconds_colons_witness :
  time_str_to_seconds "25:10:00" = Some 90600
  ∧ (count_char ":" "25:10:00" = 1%nat ∨ count_char ":" "25:10:00" = 2%nat).
Proof.
  split; [reflexivity|].
  exact (time_str_to_seconds_colons "25:10:00" 90600 eq_refl).
Defined.

Lemma format_02d_literal n :
  0 ≤ n < 100 →
  decimal_literal (format_02d n) = true ∧ decimal_value (format_02d n) = n.
Proof.
  intros Hn.
  assert (forallb
            (λ n, decimal_literal (format_02d n)
                  && (decimal_value (format_02d n) =? n))
            (seqZ 0 100) = true) as Hall by (by vm_compute).
  rewrite forallb_forall in Hall.
  specialize (Hall n). rewrite <- list_elem_of_In, elem_of_seqZ in Hall.
  specialize (Hall ltac:(lia)).
  apply andb_true_iff in Hall as [? ?%Z.eqb_eq]. done.
Qed.

(** X3. A departure time [HH:MM:SS] written with two digits a field, the
    hour up to 99, is read as [h * 3600 + m * 60 + s], and the time printed
    for that many seconds is [HH:MM] again. *)
Theorem departure_time_round_trip h m s :
  0 ≤ h < 100 → 0 ≤ m < 60 → 0 ≤ s < 60 →
  time_str_to_seconds
    (format_02d h +:+ String ":" (format_02d m +:+ String ":" (format_02d s)))
  = Some (h * 3600 + m * 60 + s)
  ∧ dep_hhmm (DepNum (h * 3600 + m * 60 + s))
    = Some (format_02d h +:+ String ":" (format_02d m)).
Proof.
  intros Hh Hm Hs.
  destruct (format_02d_literal h) as [Lh Vh]; [lia|].
  destruct (format_02d_literal m) as [Lm Vm]; [lia|].
  destruct (format_02d_literal s) as [Ls Vs]; [lia|].
  split.
  - by rewrite (parse_hms _ _ _ Lh Lm Ls), Vh, Vm, Vs.
  - unfold dep_hhmm.
    replace ((h * 3600 + m * 60 + s) / 3600) with h
      by (apply (Z.div_unique _ _ _ (m * 60 + s)); lia).
    replace ((h * 3600 + m * 60 + s) mod 3600) with (m * 60 + s)
      by (apply (Z.mod_unique _ _ h); lia).
    replace ((m * 60 + s) / 60) with m
      by (apply (Z.div_unique _ _ _ s); lia).
    reflexivity.
Qed.

Lemma departure_time_round_trip_witness :
  time_str_to_seconds "24:05:00" = Some 86700
  ∧ dep_hhmm (DepNum 86700) = Some "24:05".
Proof.
  exact (departure_time_round_trip 24 5 0 ltac:(lia) ltac:(lia) ltac:(lia)).
Defined.

(** ** More on [correlate] *)

Lemma correlate_step_stop d route_id vehicle_id s acc e :
  Py.truthy route_id = false → Py.truthy vehicle_id = false → s ≠ "" →
  correlate_step d route_id vehicle_id (Some s) acc e
  = if decide (stop_matches s e) then acc ++ [correlation_of e] else acc.
Proof.
  intros Hr Hv Hs. unfold correlate_step, correlation_of.
  rewrite Hr, Hv, (truthy_Some s Hs), step_trip.
  destruct (decide (stop_matches s e)) as [H|H]; unfold stop_matches in H;
    destruct (trip_update e) as [tu|]; simpl in *; try done.
  - replace (existsb _ _) with true; [done|]. symmetry.
    apply existsb_exists. apply Exists_exists in H as (stu & Hin & <-).
    exists stu. split; [by apply list_elem_of_In|]. by apply bool_decide_eq_true.
  - replace (existsb _ _) with false; [done|]. symmetry.
    apply not_true_is_false. intros (stu & Hin & Heq)%existsb_exists.
    apply H, Exists_exists. exists stu. split; [by apply list_elem_of_In|].
    apply bool_decide_eq_true in Heq. congruence.
Qed.

(** X4. With a stop filter alone, an entity matches iff it has a trip
    update one of whose stop time updates is at the stop; the matches come in
    feed order. *)
Theorem correlate_by_stop feed trips route_id vehicle_id s :
  Py.truthy route_id = false → Py.truthy vehicle_id = false → s ≠ "" →
  correlate feed trips route_id vehicle_id (Some s)
  = correlation_of <$> filter (stop_matches s) (entity feed).
Proof.
  intros Hr Hv Hs. unfold correlate.
  rewrite (correlate_loop (stop_matches s)); [done|].
  intros acc e. by apply correlate_step_stop.
Qed.

Lemma correlate_by_stop_witness :
  Py.truthy None = false ∧ "S" ≠ ""
  ∧ correlate sample_feed None None None (Some "S")
    = [correlation_of trip_update_entity].
Proof.
  split; [reflexivity|]. split; [done|].
  rewrite (correlate_by_stop sample_feed None None None "S" eq_refl eq_refl
             ltac:(done)).
  reflexivity.
Defined.

(** X5. A route filter takes precedence: the vehicle and stop ids given with
    it have no effect. *)
Theorem correlate_route_priority feed trips r vehicle_id stop_id :
  r ≠ "" →
  correlate feed trips (Some r) vehicle_id stop_id
  = correlate feed trips (Some r) None None.
Proof.
  intros Hr. unfold correlate.
  by rewrite !(correlate_loop (on_route trips r))
    by (intros acc e; by apply correlate_step_route).
Qed.

Lemma correlate_route_priority_witness :
  "R1" ≠ ""
  ∧ correlate sample_feed None (Some "R1") (Some "zg-8801-gr") (Some "S")
    = correlate sample_feed None (Some "R1") None None.
Proof.
  split; [done|].
  exact (correlate_route_priority sample_feed None "R1" (Some "zg-8801-gr")
           (Some "S") ltac:(done)).
Defined.




Lemma correlate_step_cases d route_id vehicle_id stop_id acc e :
  correlate_step d route_id vehicle_id stop_id acc e = acc
  ∨ correlate_step d route_id vehicle_id stop_id acc e
    = acc ++ [correlation_of e].
Proof.
  unfold correlate_step. rewrite step_trip. fold (correlation_of e).
  match goal with |- context [if ?b then _ else _] => destruct b end; auto.
Qed.

Lemma correlate_loop_sublist d route_id vehicle_id stop_id l acc :
  ∃ l', l' `sublist_of` l
        ∧ fold_left (correlate_step d route_id vehicle_id stop_id) l acc
          = acc ++ (correlation_of <$> l').
Proof.
  revert acc. induction l as [|e l IH]; intros acc; simpl.
  - exists []. by rewrite app_nil_r.
  - destruct (correlate_step_cases d route_id vehicle_id stop_id acc e)
      as [-> | ->].
    + destruct (IH acc) as (l' & Hsub & ->). exists l'.
      split; [by apply sublist_cons|done].
    + destruct (IH (acc ++ [correlation_of e])) as (l' & Hsub & ->).
      exists (e :: l'). split; [by apply sublist_skip|].
      by rewrite fmap_cons, <- app_assoc.
Qed.

(** X7. Whatever the filters, the matches are entities of the feed in feed
    order, each at most once, reported with their id, the trip id of their
    resolved trip descriptor, their trip update and their vehicle. *)
Theorem correlate_sublist feed trips route_id vehicle_id stop_id :
  ∃ l, l `sublist_of` entity feed
       ∧ correlate feed trips route_id vehicle_id stop_id = correlation_of <$> l.
Proof.
  unfold correlate.
  destruct (correlate_loop_sublist (trip_to_route trips) route_id vehicle_id
              stop_id (entity feed) []) as (l & Hsub & Heq).
  by exists l.
Qed.

(** X8. Without the static trips, or when they lack the column [trip_id] or
    [route_id], a route filter matches nothing. *)
Theorem correlate_route_without_trips feed trips r vehicle_id stop_id :
  r ≠ "" →
  (∀ t, trips = Some t →
        has_column "trip_id" t && has_column "route_id" t = false) →
  correlate feed trips (Some r) vehicle_id stop_id = [].
Proof.
  intros Hr Hcols. unfold correlate.
  rewrite (correlate_loop (on_route trips r))
    by (intros acc e; by apply correlate_step_route).
  assert (trip_to_route trips = ∅) as Hd.
  { unfold trip_to_route. destruct trips as [t|]; [|done].
    by rewrite (Hcols t eq_refl). }
  induction (entity feed) as [|e l IH]; [done|].
  rewrite filter_cons_False; [done|].
  unfold on_route. rewrite Hd. destruct (resolved_trip e); [|tauto].
  by rewrite lookup_empty.
Qed.

Lemma correlate_route_without_trips_witness :
  "R1" ≠ "" ∧ correlate sample_feed None (Some "R1") None None = [].
Proof.
  split; [done|].
  apply (correlate_route_without_trips sample_feed None "R1" None None);
    [done|]. intros t Ht. discriminate Ht.
Defined.

(** X9. The trip→route mapping gives to a trip id the route of the last row
    of [trips] that has this id. *)
Theorem trip_to_route_last_row (trips : frame trip_row) (k : string) :
  has_column "trip_id" trips = true → has_column "route_id" trips = true →
  trip_to_route (Some trips) !! k
  = trip_route_id <$> last (filter (λ t, trip_id t = Some k) (rows trips)).
Proof.
  intros H1 H2. unfold trip_to_route. rewrite H1, H2. apply to_dict_lookup.
Qed.

Lemma trip_to_route_last_row_witness :
  trip_to_route
    (Some (Frame ["trip_id"; "route_id"]
             [TripRow (Some "T1") (Some "R1") None None;
              TripRow (Some "T1") (Some "R2") None None])) !! "T1"
  = Some (Some "R2").
Proof.
  rewrite (trip_to_route_last_row
             (Frame ["trip_id"; "route_id"]
                [TripRow (Some "T1") (Some "R1") None None;
                 TripRow (Some "T1") (Some "R2") None None])
             "T1" eq_refl eq_refl).
  reflexivity.
Defined.

(** ** More on [get_static_trips_for_route] *)

Lemma cell_le_trans : Transitive cell_le.
Proof.
  intros [x|] [y|] [z|]; simpl; try done.
  apply (transitivity (R:=String.le)).
Qed.

Lemma cell_le_total : Total cell_le.
Proof.
  intros [x|] [y|]; simpl; try tauto. apply (total String.le).
Qed.

Lemma schedule_of_trip_stops stop_times stop_names t :
  StronglySorted by_seq (ts_stops (schedule_of_trip stop_times stop_names t))
  ∧ stop_entry_fields <$> ts_stops (schedule_of_trip stop_times stop_names t)
    ≡ₚ stop_time_fields <$> rows_of_trip stop_times (trip_id t).
Proof.
  unfold schedule_of_trip, rows_of_trip. simpl. split.
  - apply (StronglySorted_fmap _
             (λ a b, cell_le (stop_sequence a) (stop_sequence b))); [done|].
    unfold sort_values.
    apply (@StronglySorted_merge_sort _ _ _).
    + intros a b c. apply cell_le_trans.
    + intros a b. apply cell_le_total.
  - change (map ?f ?l) with (f <$> l). rewrite <- list_fmap_compose.
    rewrite sort_values_perm.
    rewrite (List_filter_filter _
               (λ s, is_Some (trip_id t) ∧ st_trip_id s = trip_id t))
      by (intros s; apply bool_decide_eq_true).
    done.
Qed.

Lemma elem_of_get_static trips stop_times stops route_id active sch :
  sch ∈ get_static_trips_for_route (Some trips) (Some stop_times) stops
          route_id active →
  ∃ t, t ∈ rows trips ∧ trip_route_id t = Some route_id
       ∧ sch = schedule_of_trip stop_times (stop_names_of stops) t.
Proof.
  rewrite get_static_trips_for_route_spec.
  intros (t & -> & Ht)%list_elem_of_fmap. exists t.
  destruct (has_column "service_id" trips && _);
    apply list_elem_of_filter in Ht; tauto.
Qed.

(** X10. The schedules returned are those of trips of the route, in the
    order of [trips.txt], each with the id and the headsign of its trip. *)
Theorem get_static_trips_of_route trips stop_times stops route_id active :
  ∃ cand,
    cand `sublist_of` rows trips
    ∧ Forall (λ t, trip_route_id t = Some route_id) cand
    ∧ (λ sch, (ts_trip_id sch, ts_headsign sch))
      <$> get_static_trips_for_route (Some trips) (Some stop_times) stops
            route_id active
      = (λ t, (trip_id t, trip_headsign t)) <$> cand.
Proof.
  rewrite get_static_trips_for_route_spec.
  destruct (has_column "service_id" trips && bool_decide (active ≠ ∅)).
  - exists (filter (λ t, trip_route_id t = Some route_id
                         ∧ in_service active (trip_service_id t))
              (rows trips)).
    split; [apply sublist_filter|]. split.
    + apply Forall_forall. intros t Ht%list_elem_of_filter. tauto.
    + by rewrite <- list_fmap_compose.
  - exists (filter (λ t, trip_route_id t = Some route_id) (rows trips)).
    split; [apply sublist_filter|]. split.
    + apply Forall_forall. intros t Ht%list_elem_of_filter. tauto.
    + by rewrite <- list_fmap_compose.
Qed.

(** X11. The stops of a returned schedule are the rows of [stop_times] of
    its trip, each once, in ascending order of the text of their
    [stop_sequence] (NaN last). *)
Theorem get_static_stops_sorted trips stop_times stops route_id active sch :
  sch ∈ get_static_trips_for_route (Some trips) (Some stop_times) stops
          route_id active →
  StronglySorted by_seq (ts_stops sch)
  ∧ stop_entry_fields <$> ts_stops sch
    ≡ₚ stop_time_fields <$> rows_of_trip stop_times (ts_trip_id sch).
Proof.
  intros (t & _ & _ & ->)%elem_of_get_static. apply schedule_of_trip_stops.
Qed.

Lemma get_static_stops_sorted_witness :
  ∃ sch,
    sch ∈ get_static_trips_for_route (Some sample_trips)
            (Some sample_stop_times) None "R1" ∅
    ∧ StronglySorted by_seq (ts_stops sch).
Proof.
  eexists. split; [left|].
  refine (proj1 (get_static_stops_sorted sample_trips sample_stop_times None
                   "R1" ∅ _ _)).
  left.
Defined.




(** ** More on the departures of a stop *)

Lemma elem_of_upcoming trips stop_times sid user_dt active r :
  r ∈ upcoming trips stop_times sid user_dt active →
  has_column "departure_time" stop_times = true
  ∧ r ∈ merged_with_delta trips (stop_rows stop_times sid) user_dt
          (merged_has_service_id stop_times) active
  ∧ num_geb (delta r) (-300) = true.
Proof.
  destruct (has_column "departure_time" stop_times) eqn:Hcol.
  - rewrite upcoming_unfold by done.
    intros Hr%(subseteq_take 50). rewrite sort_values_perm in Hr.
    by apply elem_of_List_filter in Hr as [Hr Hge].
  - unfold upcoming. rewrite Hcol.
    destruct (List.filter _ _); by intros ?%not_elem_of_nil.
Qed.

Lemma merge_left_row sts trips m :
  m ∈ merge_left sts trips →
  (m_stop_time m, m_dep_sec m) ∈ sts
  ∧ ((∃ t, t ∈ trips ∧ trip_id t = st_trip_id (m_stop_time m)
           ∧ m_route_id m = trip_route_id t
           ∧ m_service_id m = trip_service_id t)
     ∨ ((∀ t, t ∈ trips → trip_id t ≠ st_trip_id (m_stop_time m))
        ∧ m_route_id m = None ∧ m_service_id m = None)).
Proof.
  unfold merge_left. intros ([s d] & Hm & Hs)%list_elem_of_bind.
  destruct (List.filter _ trips) as [|t ts] eqn:Hf.
  - apply list_elem_of_singleton in Hm as ->. simpl. split; [done|]. right.
    split; [|done]. intros t Ht Heq.
    assert (t ∈ List.filter (λ t, bool_decide (trip_id t = st_trip_id s)) trips)
      as Hin by (apply elem_of_List_filter; by rewrite bool_decide_eq_true).
    rewrite Hf in Hin. by apply not_elem_of_nil in Hin.
  - apply list_elem_of_fmap in Hm as (t' & -> & Ht'). simpl. split; [done|].
    left. exists t'. rewrite <- Hf in Ht'.
    apply elem_of_List_filter in Ht' as [? ?%bool_decide_eq_true]. done.
Qed.

Lemma elem_of_merged_filter trips sts user_dt active r :
  active ≠ ∅ →
  r ∈ merged_with_delta trips sts user_dt true active →
  in_service active (m_service_id (u_row r)).
Proof.
  intros Hne. rewrite merged_with_delta_spec.
  rewrite (bool_decide_eq_true_2 _ Hne). simpl.
  intros (m & -> & Hm)%list_elem_of_fmap.
  by apply list_elem_of_filter in Hm as [Hm _].
Qed.

(** X13. Every departure returned is a row of [stop_times] at the queried
    stop. *)
Theorem upcoming_at_stop trips stop_times sid user_dt active r :
  r ∈ upcoming trips stop_times sid user_dt active →
  m_stop_time (u_row r) ∈ rows stop_times
  ∧ st_stop_id (m_stop_time (u_row r)) = Some sid.
Proof.
  intros (_ & Hr & _)%elem_of_upcoming.
  apply elem_of_merged in Hr as [Hj _].
  apply elem_of_joined in Hj as [Hs _].
  apply elem_of_List_filter in Hs as [? ?%bool_decide_eq_true]. done.
Qed.

Lemma upcoming_at_stop_witness :
  ∃ r, r ∈ upcoming sample_trips sample_stop_times "S" midnight ∅
       ∧ st_stop_id (m_stop_time (u_row r)) = Some "S".
Proof.
  pose (r := UpcomingRow
               (MergedRow
                  (StopTimeRow (Some "T3") (Some "S") (Some "07:50:00")
                     (Some "07:54:59") (Some "2"))
                  (DepNum 28499) (Some "R2") (Some "A"))
               (Num 28499)).
  assert (r ∈ upcoming sample_trips sample_stop_times "S" midnight ∅) as Hr.
  { apply (list_elem_of_lookup_2 _ 0%nat). by vm_compute. }
  exists r. split; [exact Hr|].
  exact (proj2 (upcoming_at_stop sample_trips sample_stop_times "S" midnight ∅
                  r Hr)).
Defined.

(** X14. Every departure returned has a delta that is a number, at least
    −300, computed from its [dep_sec], and a [dep_sec] that is not NaN: the
    conversion [int(r["dep_sec"])] of the printing loop never fails. *)
Theorem upcoming_printable trips stop_times sid user_dt active r :
  r ∈ upcoming trips stop_times sid user_dt active →
  (∃ d, delta r = Num d ∧ -300 ≤ d)
  ∧ delta r = delta_of (query_seconds user_dt) (m_dep_sec (u_row r))
  ∧ is_Some (dep_hhmm (m_dep_sec (u_row r))).
Proof.
  intros (_ & Hr & Hge)%elem_of_upcoming.
  apply elem_of_merged in Hr as [_ Hdelta].
  split; [by apply num_geb_spec|]. split; [done|].
  rewrite Hdelta in Hge. by destruct (m_dep_sec (u_row r)).
Qed.

Lemma upcoming_printable_witness :
  ∃ r, r ∈ upcoming sample_trips sample_stop_times "S" midnight ∅
       ∧ is_Some (dep_hhmm (m_dep_sec (u_row r))).
Proof.
  pose (r := UpcomingRow
               (MergedRow
                  (StopTimeRow (Some "T3") (Some "S") (Some "07:50:00")
                     (Some "07:54:59") (Some "2"))
                  (DepNum 28499) (Some "R2") (Some "A"))
               (Num 28499)).
  assert (r ∈ upcoming sample_trips sample_stop_times "S" midnight ∅) as Hr.
  { apply (list_elem_of_lookup_2 _ 0%nat). by vm_compute. }
  exists r. split; [exact Hr|].
  exact (proj2 (proj2 (upcoming_printable sample_trips sample_stop_times "S"
                         midnight ∅ r Hr))).
Defined.

(** X15. With a non-empty active set (and no column [service_id] in
    [stop_times]) every departure returned is of an active service; a row
    whose trip is not in [trips.txt] has no service and is not returned. *)
Theorem upcoming_active_only trips stop_times sid user_dt active r :
  active ≠ ∅ → has_column "service_id" stop_times = false →
  r ∈ upcoming trips stop_times sid user_dt active →
  in_service active (m_service_id (u_row r))
  ∧ ∃ t, t ∈ rows trips ∧ trip_id t = st_trip_id (m_stop_time (u_row r)).
Proof.
  intros Hne Hcol (_ & Hr & _)%elem_of_upcoming.
  unfold merged_has_service_id in Hr. rewrite Hcol in Hr. simpl in Hr.
  pose proof (elem_of_merged_filter _ _ _ _ _ Hne Hr) as Hs.
  split; [done|].
  apply elem_of_merged in Hr as [Hj _]. unfold joined in Hj.
  apply merge_left_row in Hj as [_ [(t & Ht & Hid & _)|(_ & _ & Hnone)]].
  - by exists t.
  - rewrite Hnone in Hs. by destruct Hs as (v & [=] & _).
Qed.

Lemma upcoming_active_only_witness :
  ∃ r, r ∈ upcoming sample_trips sample_stop_times "S" midnight {["B"]}
       ∧ in_service {["B"]} (m_service_id (u_row r)).
Proof.
  pose (r := UpcomingRow
               (MergedRow
                  (StopTimeRow (Some "T2") (Some "S") (Some "08:04:00")
                     (Some "08:05:00") (Some "1"))
                  (DepNum 29100) (Some "R1") (Some "B"))
               (Num 29100)).
  assert (r ∈ upcoming sample_trips sample_stop_times "S" midnight {["B"]})
    as Hr.
  { apply (list_elem_of_lookup_2 _ 0%nat). by vm_compute. }
  assert (({["B"]} : gset string) ≠ ∅) as Hne.
  { intros Heq. apply (not_elem_of_empty (C:=gset string) "B").
    rewrite <- Heq. by apply elem_of_singleton. }
  exists r. split; [exact Hr|].
  exact (proj1 (upcoming_active_only sample_trips sample_stop_times "S"
                  midnight {["B"]} r Hne eq_refl Hr)).
Defined.

(** X16. The route and the service shown for a departure are those of a row
    of [trips.txt] with its trip id; they are NaN when no row has it. *)
Theorem upcoming_trip_columns trips stop_times sid user_dt active r :
  r ∈ upcoming trips stop_times sid user_dt active →
  (∃ t, t ∈ rows trips
        ∧ trip_id t = st_trip_id (m_stop_time (u_row r))
        ∧ m_route_id (u_row r) = trip_route_id t
        ∧ m_service_id (u_row r) = trip_service_id t)
  ∨ ((∀ t, t ∈ rows trips → trip_id t ≠ st_trip_id (m_stop_time (u_row r)))
     ∧ m_route_id (u_row r) = None ∧ m_service_id (u_row r) = None).
Proof.
  intros (_ & Hr & _)%elem_of_upcoming.
  apply elem_of_merged in Hr as [Hj _]. unfold joined in Hj.
  by apply merge_left_row in Hj as [_ ?].
Qed.

Lemma upcoming_trip_columns_witness :
  ∃ r, r ∈ upcoming sample_trips sample_stop_times "S" midnight ∅
       ∧ ((∃ t, t ∈ rows sample_trips
                ∧ trip_id t = st_trip_id (m_stop_time (u_row r))
                ∧ m_route_id (u_row r) = trip_route_id t
                ∧ m_service_id (u_row r) = trip_service_id t)
          ∨ ((∀ t, t ∈ rows sample_trips →
                   trip_id t ≠ st_trip_id (m_stop_time (u_row r)))
             ∧ m_route_id (u_row r) = None ∧ m_service_id (u_row r) = None)).
Proof.
  pose (r := UpcomingRow
               (MergedRow
                  (StopTimeRow (Some "T3") (Some "S") (Some "07:50:00")
                     (Some "07:54:59") (Some "2"))
                  (DepNum 28499) (Some "R2") (Some "A"))
               (Num 28499)).
  assert (r ∈ upcoming sample_trips sample_stop_times "S" midnight ∅) as Hr.
  { apply (list_elem_of_lookup_2 _ 0%nat). by vm_compute. }
  exists r. split; [exact Hr|].
  exact (upcoming_trip_columns sample_trips sample_stop_times "S" midnight ∅
           r Hr).
Defined.



(** X18. When at most 50 rows pass the delta filter, all of them are
    returned. *)
Theorem upcoming_complete trips stop_times sid user_dt active :
  has_column "departure_time" stop_times = true →
  let kept :=
    List.filter (λ r, num_geb (delta r) (-300))
      (merged_with_delta trips (stop_rows stop_times sid) user_dt
         (merged_has_service_id stop_times) active) in
  (length kept ≤ 50)%nat →
  upcoming trips stop_times sid user_dt active ≡ₚ kept.
Proof.
  intros Hcol kept Hlen. rewrite upcoming_unfold by done. fold kept.
  rewrite take_ge by (by rewrite sort_values_perm).
  apply sort_values_perm.
Qed.

Lemma upcoming_complete_witness :
  length (upcoming sample_trips sample_stop_times "S" midnight ∅) = 3%nat.
Proof.
  rewrite (upcoming_complete sample_trips sample_stop_times "S" midnight ∅
             eq_refl); [reflexivity|].
  vm_compute. lia.
Defined.

(** ** More on [active_services] *)

Section MoreCalendar.

Variable to_datetime : string → option Py.date.

(** X19. Only the exceptions dated on the target date count: the rows of
    [calendar_dates.txt] of another date, or whose date does not parse, can
    be removed without changing the result. *)
Theorem active_services_other_dates calendar calendar_dates target :
  active_services to_datetime calendar (Some calendar_dates) target
  = active_services to_datetime calendar
      (Some (filter (λ e, to_date to_datetime (cd_date e) = Some target)
               calendar_dates))
      target.
Proof.
  apply set_eq. intros s. rewrite !elem_of_active_services. simpl.
  assert (∀ kind,
    (∃ e, e ∈ calendar_dates ∧ exception_on to_datetime target kind s e)
    ↔ (∃ e,
         e ∈ filter (λ e, to_date to_datetime (cd_date e) = Some target)
               calendar_dates
         ∧ exception_on to_datetime target kind s e)) as Hex.
  { intros kind. split; intros (e & He & Hx); exists e.
    - split; [|done]. apply list_elem_of_filter. split; [|done]. apply Hx.
    - split; [|done]. by apply list_elem_of_filter in He as [_ He]. }
  by rewrite <- !Hex.
Qed.

(** X20. The result depends on the rows the two tables hold, not on their
    order or on repetitions. *)
Theorem active_services_same_rows calendar calendar' calendar_dates
    calendar_dates' target :
  (∀ r, r ∈ calendar ↔ r ∈ calendar') →
  (∀ e, e ∈ calendar_dates ↔ e ∈ calendar_dates') →
  active_services to_datetime (Some calendar) (Some calendar_dates) target
  = active_services to_datetime (Some calendar') (Some calendar_dates') target.
Proof.
  intros Hc Hd. apply set_eq. intros s. rewrite !elem_of_active_services.
  simpl.
  assert (∀ P : calendar_row → Prop,
    (∃ r, r ∈ calendar ∧ P r) ↔ (∃ r, r ∈ calendar' ∧ P r)) as Hc'.
  { intros P. split; intros (r & Hr & HP); exists r; split; try done;
      by apply Hc. }
  assert (∀ P : calendar_dates_row → Prop,
    (∃ e, e ∈ calendar_dates ∧ P e) ↔ (∃ e, e ∈ calendar_dates' ∧ P e)) as Hd'.
  { intros P. split; intros (r & Hr & HP); exists r; split; try done;
      by apply Hd. }
  by rewrite Hc', !Hd'.
Qed.

(** X21. A service added by an exception on the target date, and not
    removed on that date, is active whatever the weekly rules say, and
    without [calendar.txt] as well. *)
Theorem added_exception_is_active calendar calendar_dates target s e :
  e ∈ calendar_dates →
  exception_on to_datetime target "1" s e →
  (∀ e', e' ∈ calendar_dates → ¬ exception_on to_datetime target "2" s e') →
  s ∈ active_services to_datetime calendar (Some calendar_dates) target.
Proof.
  intros He Hadd Hrem. apply elem_of_active_services. simpl. split.
  - right. by exists e.
  - intros (e' & He' & Hx). by apply (Hrem e').
Qed.

End MoreCalendar.

Lemma active_services_same_rows_witness :
  active_services to_datetime_Ymd (Some [monday_rule_A]) (Some [added_B])
    (Py.Date 2024 6 10)
  = active_services to_datetime_Ymd (Some [monday_rule_A; monday_rule_A])
      (Some [added_B; added_B]) (Py.Date 2024 6 10).
Proof.
  apply active_services_same_rows.
  - intros r. rewrite !list_elem_of_In. simpl. tauto.
  - intros e. rewrite !list_elem_of_In. simpl. tauto.
Defined.

Lemma added_exception_is_active_witness :
  exception_on to_datetime_Ymd (Py.Date 2024 6 10) "1" "B" added_B
  ∧ "B" ∈ active_services to_datetime_Ymd None (Some [added_B])
            (Py.Date 2024 6 10).
Proof.
  assert (exception_on to_datetime_Ymd (Py.Date 2024 6 10) "1" "B" added_B)
    as Ha by (repeat split; reflexivity).
  split; [exact Ha|].
  apply (added_exception_is_active to_datetime_Ymd None [added_B]
           (Py.Date 2024 6 10) "B" added_B).
  - apply list_elem_of_In. simpl. tauto.
  - exact Ha.
  - intros e' He' (_ & _ & Hk). apply list_elem_of_singleton in He' as ->.
    discriminate Hk.
Defined.

(** ** The choice of a result by index *)

Lemma py_index_elem {A} (results : list A) idx r :
  py_index results idx = Some r → r ∈ results.
Proof.
  unfold py_index. repeat case_match; try done;
    apply list_elem_of_lookup_2.
Qed.

(** X22. The result chosen is always one of the results; nothing is chosen
    from an empty list. *)
Theorem choose_elem {A} (results : list A) sel r :
  choose results sel = Chosen r → r ∈ results.
Proof.
  unfold choose. destruct results as [|a [|b l]]; [done| |].
  - intros [= ->]. left.
  - destruct (_ <=? _); [done|].
    destruct (py_index _ _) as [x|] eqn:Hx; [|done].
    intros [= ->]. by apply py_index_elem in Hx.
Qed.

Lemma choose_elem_witness :
  choose ["a"; "b"; "c"] "1" = Chosen "b" ∧ "b" ∈ ["a"; "b"; "c"].
Proof.
  split; [reflexivity|].
  exact (choose_elem ["a"; "b"; "c"] "1" "b" eq_refl).
Defined.



(** X24. Among [n] results, two or more, the answer [i] chooses the result
    of index [i] when [0 ≤ i < n] and is refused when [n ≤ i]; a negative [i]
    is not refused: it chooses the result of index [n + i], counted from the
    end, when [- n ≤ i], and raises [IndexError] below. *)
Theorem choose_by_index {A} (results : list A) sel i :
  (2 ≤ length results)%nat →
  Py.strip sel ≠ "" → Py.int (Py.strip sel) = Some i →
  let n := Z.of_nat (length results) in
  (n ≤ i → choose results sel = InvalidIndex)
  ∧ (0 ≤ i < n →
     ∃ r, results !! Z.to_nat i = Some r ∧ choose results sel = Chosen r)
  ∧ (- n ≤ i < 0 →
     ∃ r, results !! Z.to_nat (n + i) = Some r
          ∧ choose results sel = Chosen r)
  ∧ (i < - n → choose results sel = IndexError).
Proof.
  intros Hlen Hsel Hint n.
  assert (choose results sel
          = if n <=? i then InvalidIndex
            else match py_index results i with
                 | Some r => Chosen r
                 | None => IndexError
                 end) as ->.
  { unfold choose. destruct results as [|a [|b l]]; simpl in Hlen; try lia.
    rewrite Hint. unfold str_truthy.
    by rewrite (proj2 (String.eqb_neq _ _) Hsel). }
  unfold py_index. fold n. repeat split.
  - intros Hi. by rewrite (proj2 (Z.leb_le _ _) Hi).
  - intros Hi. rewrite (proj2 (Z.leb_gt _ _)) by lia.
    rewrite (proj2 (Z.leb_le 0 i)) by lia.
    destruct (lookup_lt_is_Some_2 results (Z.to_nat i)) as [r Hr]; [lia|].
    exists r. by rewrite Hr.
  - intros Hi. rewrite (proj2 (Z.leb_gt n i)) by lia.
    rewrite (proj2 (Z.leb_gt 0 i)) by lia.
    rewrite (proj2 (Z.leb_le (- n) i)) by lia.
    destruct (lookup_lt_is_Some_2 results (Z.to_nat (n + i))) as [r Hr]; [lia|].
    exists r. by rewrite Hr.
  - intros Hi. rewrite (proj2 (Z.leb_gt n i)) by lia.
    rewrite (proj2 (Z.leb_gt 0 i)) by lia.
    by rewrite (proj2 (Z.leb_gt (- n) i)) by lia.
Qed.

Lemma choose_by_index_witness :
  Py.int (Py.strip "-1") = Some (-1)
  ∧ choose ["a"; "b"; "c"] "-1" = Chosen "c".
Proof.
  split; [reflexivity|].
  destruct (proj1 (proj2 (proj2
    (choose_by_index ["a"; "b"; "c"] "-1" (-1) ltac:(simpl; lia)
       ltac:(done) eq_refl))) ltac:(simpl; lia)) as (r & Hr & ->).
  simpl in Hr. by injection Hr as <-.
Defined.

(** ** The fleet roster and the search of a vehicle *)

Lemma append_cons x (a b : string) : String x a +:+ b = String x (a +:+ b).
Proof. reflexivity. Qed.

Lemma append_nil_l (a : string) : "" +:+ a = a.
Proof. reflexivity. Qed.

Lemma append_assoc (a b c : string) : (a +:+ b) +:+ c = a +:+ (b +:+ c).
Proof.
  induction a as [|x a IH]; [done|]. rewrite ?append_cons. by f_equal.
Qed.

Lemma append_nil_r (a : string) : a +:+ "" = a.
Proof.
  induction a as [|x a IH]; [done|]. rewrite ?append_cons. by f_equal.
Qed.

Lemma prefix_spec (p s : string) :
  String.prefix p s = true ↔ ∃ b, s = p +:+ b.
Proof.
  revert s. induction p as [|x p IH]; intros s; simpl.
  - destruct s; simpl; (split; [intros _; eexists; reflexivity|done]).
  - destruct s as [|y s]; simpl.
    + split; [done|]. intros (b & Hb). by rewrite ?append_cons in Hb.
    + destruct (ascii_dec x y) as [->|Hne].
      * rewrite IH. split; intros (b & Hb); exists b; rewrite ?append_cons.
        -- by rewrite Hb.
        -- rewrite ?append_cons in Hb. by injection Hb.
      * split; [done|]. intros (b & Hb). rewrite ?append_cons in Hb.
        injection Hb as Hxy _. congruence.
Qed.

Lemma substring_of_refl s : substring_of s s.
Proof. exists "", "". by rewrite ?append_nil_l, ?append_nil_r. Qed.

Lemma substring_of_trans a b c :
  substring_of a b → substring_of b c → substring_of a c.
Proof.
  intros (x & y & ->) (u & v & ->). exists (u +:+ x), (y +:+ v).
  by rewrite !append_assoc.
Qed.

Lemma substring_of_cons a c s : substring_of a s → substring_of a (String c s).
Proof. intros (x & y & ->). by exists (String c x), y. Qed.

Lemma substring_of_prefix a b : substring_of a (a +:+ b).
Proof. by exists "", b. Qed.

Lemma str_contains_nil needle :
  str_contains needle "" = String.prefix needle "" || false.
Proof. reflexivity. Qed.

Lemma str_contains_cons needle c hay :
  str_contains needle (String c hay)
  = String.prefix needle (String c hay) || str_contains needle hay.
Proof. reflexivity. Qed.

Lemma str_contains_spec needle hay :
  str_contains needle hay = true ↔ substring_of needle hay.
Proof.
  induction hay as [|c hay IH].
  - rewrite str_contains_nil, orb_false_r, prefix_spec. split.
    + intros (b & ->). apply substring_of_prefix.
    + intros (a & b & H). destruct a as [|x a]; [by exists b|].
      by rewrite ?append_cons in H.
  - rewrite str_contains_cons, orb_true_iff, prefix_spec, IH. split.
    + intros [(b & ->)|H]; [apply substring_of_prefix|by apply substring_of_cons].
    + intros (a & b & H). destruct a as [|x a].
      * left. by exists b.
      * right. rewrite ?append_cons in H. injection H as _ ->. by exists a, b.
Qed.

Lemma lower_app a b : Py.lower (a +:+ b) = Py.lower a +:+ Py.lower b.
Proof.
  induction a as [|x a IH]; [done|]. rewrite ?append_cons. simpl.
  rewrite ?append_cons. by f_equal.
Qed.

Lemma substring_of_lower a b :
  substring_of a b → substring_of (Py.lower a) (Py.lower b).
Proof.
  intros (x & y & ->). exists (Py.lower x), (Py.lower y).
  by rewrite !lower_app.
Qed.

Lemma lstrip_suffix s : ∃ a, s = a +:+ Py.lstrip s.
Proof.
  induction s as [|c s [a IH]]; simpl; [by exists ""|].
  destruct (Py.is_space c); [|by exists ""].
  exists (String c a). by rewrite IH at 1.
Qed.

Lemma rstrip_prefix s : ∃ b, s = Py.rstrip s +:+ b.
Proof.
  induction s as [|c s [b IH]]; simpl; [by exists ""|].
  destruct (Py.rstrip s) as [|x r] eqn:Hr.
  - destruct (Py.is_space c).
    + by exists (String c s).
    + exists s. by rewrite ?append_cons, ?append_nil_l.
  - exists b. by rewrite IH at 1.
Qed.

Lemma strip_substring s : substring_of (Py.strip s) s.
Proof.
  unfold Py.strip. destruct (lstrip_suffix s) as [a Ha].
  destruct (rstrip_prefix (Py.lstrip s)) as [b Hb].
  exists a, b. by rewrite <- Hb.
Qed.

Lemma split_head_prefix sep s :
  ∃ b, s = hd "" (Py.split sep s) +:+ b.
Proof.
  induction s as [|c s [b IH]]; simpl; [by exists ""|].
  destruct (Ascii.eqb c sep); simpl; [by exists (String c s)|].
  destruct (Py.split sep s) as [|p ps]; simpl in *.
  - exists s. by rewrite ?append_cons, ?append_nil_l.
  - exists b. by rewrite IH at 1.
Qed.

Lemma split_nth_substring sep s i :
  (i < length (Py.split sep s))%nat →
  substring_of (nth i (Py.split sep s) "") s.
Proof.
  revert i. induction s as [|c s IH]; intros i; simpl.
  - intros Hi. destruct i as [|i]; [apply substring_of_refl|lia].
  - destruct (Ascii.eqb c sep); simpl.
    + destruct i as [|i]; [by exists "", (String c s)|].
      intros Hi. apply substring_of_cons, IH. lia.
    + pose proof (split_head_prefix sep s) as [b Hb].
      destruct (Py.split sep s) as [|p ps] eqn:Hsp; simpl in *.
      * destruct i as [|i]; simpl; intros Hi; [|lia].
        exists "", s. by rewrite ?append_nil_l, ?append_cons, ?append_nil_l.
      * destruct i as [|i]; simpl.
        -- intros _. exists "", b. by rewrite Hb at 1.
        -- intros Hi. apply substring_of_cons. apply (IH (S i)). simpl. lia.
Qed.

Lemma voznipark_line_Some line v :
  voznipark_line line = Some v →
  raw v = Py.strip line ∧ raw v ≠ ""
  ∧ str_startswith "#" (raw v) = false
  ∧ ((garazni v = None ∧ reg v = None ∧ model v = raw v
      ∧ (count_char "/" (raw v) < 2)%nat)
     ∨ (garazni v = Some (Py.strip (nth 0 (Py.split "/" (raw v)) ""))
        ∧ reg v = Some (Py.strip (nth 1 (Py.split "/" (raw v)) ""))
        ∧ model v = Py.strip (str_join "/" (drop 2 (Py.split "/" (raw v))))
        ∧ (2 ≤ count_char "/" (raw v))%nat)).
Proof.
  unfold voznipark_line.
  destruct (str_truthy (Py.strip line)) eqn:Ht; [|done].
  change (negb true) with false. rewrite orb_false_l.
  destruct (str_startswith "#" (Py.strip line)) eqn:Hh; [done|].
  pose proof (length_split "/" (Py.strip line)) as Hlen.
  unfold str_truthy in Ht. apply negb_true_iff, String.eqb_neq in Ht.
  destruct (Nat.leb_spec 3 (length (Py.split "/" (Py.strip line))));
    intros Hv; apply (inj Some) in Hv; subst v; simpl;
    (split; [done|]); (split; [done|]); (split; [done|]).
  - right. repeat split; try done. lia.
  - left. repeat split; try done. lia.
Qed.

(** X25. Every record of the roster comes from a line of the file that,
    stripped, is neither empty nor a comment, and keeps that text as [raw];
    it has a garage number and a registration iff the text has two slashes
    or more, and else its model is the whole text. *)
Theorem load_voznipark_records file v :
  v ∈ load_voznipark file →
  ∃ lines line,
    file = Some lines ∧ line ∈ lines
    ∧ raw v = Py.strip line ∧ raw v ≠ ""
    ∧ str_startswith "#" (raw v) = false
    ∧ (is_Some (garazni v) ↔ (2 ≤ count_char "/" (raw v))%nat)
    ∧ (is_Some (reg v) ↔ (2 ≤ count_char "/" (raw v))%nat)
    ∧ ((count_char "/" (raw v) < 2)%nat → model v = raw v).
Proof.
  unfold load_voznipark. destruct file as [lines|];
    [|by intros ?%not_elem_of_nil].
  intros (line & Hline & Hv)%list_elem_of_omap.
  exists lines, line.
  apply voznipark_line_Some in Hv
    as (Hraw & Hne & Hhash & [(Hg & Hr & Hm & Hc)|(Hg & Hr & Hm & Hc)]);
    rewrite Hg, Hr; repeat split; try done; try lia;
    try (intros ?; lia); try (by intros [? [=]]).
Qed.

Lemma load_voznipark_records_witness :
  ∃ v, v ∈ load_voznipark (Some ["# fleet"; ""; " 432 / ZG-8801-GR / MAN "])
       ∧ raw v = "432 / ZG-8801-GR / MAN".
Proof.
  pose (v := Vozilo (Some "432") (Some "ZG-8801-GR") "MAN"
               "432 / ZG-8801-GR / MAN").
  assert (v ∈ load_voznipark
                (Some ["# fleet"; ""; " 432 / ZG-8801-GR / MAN "])) as Hv.
  { apply (list_elem_of_lookup_2 _ 0%nat). by vm_compute. }
  exists v. split; [exact Hv|].
  destruct (load_voznipark_records _ v Hv) as (lines & line & _). reflexivity.
Defined.

Lemma split_nosep_app sep a r :
  count_char sep a = 0%nat →
  Py.split sep (a +:+ String sep r) = a :: Py.split sep r.
Proof.
  induction a as [|c a IH]; intros Ha.
  - rewrite append_nil_l. simpl. by rewrite Ascii.eqb_refl.
  - rewrite append_cons. simpl in *.
    destruct (Ascii.eqb c sep); [done|]. by rewrite (IH Ha).
Qed.

Lemma split_not_nil sep s : Py.split sep s ≠ [].
Proof.
  pose proof (length_split sep s) as H. by destruct (Py.split sep s).
Qed.

Lemma join_split sep s : str_join (String sep "") (Py.split sep s) = s.
Proof.
  unfold str_join. induction s as [|c s IH]; [done|]. simpl.
  pose proof (split_not_nil sep s) as Hne.
  destruct (Ascii.eqb_spec c sep) as [->|Hc].
  - destruct (Py.split sep s) as [|p ps]; [done|].
    change (String.concat (String sep "") ("" :: p :: ps))
      with (String sep (String.concat (String sep "") (p :: ps))).
    by rewrite IH.
  - destruct (Py.split sep s) as [|p [|q ps]]; [done| |].
    + simpl in *. by rewrite IH.
    + change (String.concat (String sep "") (String c p :: q :: ps))
        with (String c (String.concat (String sep "") (p :: q :: ps))).
      by rewrite IH.
Qed.

(** X26. A line that reads, once stripped, [g/r/m] with no slash in [g] and
    [r], and that is not a comment, gives the garage number [g], the
    registration [r] and the model [m], each stripped; the model keeps the
    slashes it has. *)
Theorem voznipark_line_fields line g r m :
  Py.strip line = g +:+ String "/" (r +:+ String "/" m) →
  count_char "/" g = 0%nat → count_char "/" r = 0%nat →
  str_startswith "#" (Py.strip line) = false →
  voznipark_line line
  = Some (Vozilo (Some (Py.strip g)) (Some (Py.strip r)) (Py.strip m)
            (Py.strip line)).
Proof.
  intros Hs Hg Hr Hhash. unfold voznipark_line. rewrite Hhash.
  assert (str_truthy (Py.strip line) = true) as ->.
  { rewrite Hs. by destruct g. }
  change (negb true || false) with false. cbv iota.
  assert (Py.split "/" (Py.strip line) = g :: r :: Py.split "/" m) as ->.
  { by rewrite Hs, (split_nosep_app _ g _ Hg), (split_nosep_app _ r _ Hr). }
  pose proof (split_not_nil "/" m) as Hne.
  destruct (Py.split "/" m) as [|p ps] eqn:Hm; [done|].
  change (3 <=? length (g :: r :: p :: ps))%nat with true. cbv iota.
  change (drop 2 (g :: r :: p :: ps)) with (p :: ps).
  by rewrite <- Hm, (join_split "/" m).
Qed.

Lemma voznipark_line_fields_witness :
  voznipark_line " 432 / ZG-8801-GR / MAN Lion's City/A21 "
  = Some (Vozilo (Some "432") (Some "ZG-8801-GR") "MAN Lion's City/A21"
            "432 / ZG-8801-GR / MAN Lion's City/A21").
Proof.
  exact (voznipark_line_fields " 432 / ZG-8801-GR / MAN Lion's City/A21 "
           "432 " " ZG-8801-GR " " MAN Lion's City/A21"
           eq_refl eq_refl eq_refl eq_refl).
Defined.

Lemma vehicle_found_raw file vid v :
  v ∈ load_voznipark file →
  vehicle_found vid v = str_contains (Py.lower vid) (Py.lower (raw v)).
Proof.
  unfold load_voznipark. destruct file as [lines|];
    [|by intros ?%not_elem_of_nil].
  intros (line & _ & Hv)%list_elem_of_omap.
  apply voznipark_line_Some in Hv
    as (_ & Hne & _ & [(Hg & Hr & _ & _)|(Hg & Hr & _ & Hc)]);
    unfold vehicle_found; rewrite Hg, Hr;
    assert (str_truthy (raw v) = true) as ->
      by (by apply negb_true_iff, String.eqb_neq).
  - done.
  - rewrite andb_true_l.
    destruct (str_contains (Py.lower vid) (Py.lower (raw v))) eqn:HC;
      [by rewrite orb_true_r|].
    rewrite orb_false_r.
    pose proof (length_split "/" (raw v)) as Hlen.
    assert (∀ i, (i < 2)%nat →
      substring_of (Py.strip (nth i (Py.split "/" (raw v)) "")) (raw v))
      as Hsub.
    { intros i Hi. eapply substring_of_trans; [apply strip_substring|].
      apply split_nth_substring. lia. }
    apply orb_false_iff. split.
    + apply not_true_is_false. intros [_ Heq%String.eqb_eq]%andb_true_iff.
      assert (str_contains (Py.lower vid) (Py.lower (raw v)) = true)
        as HC'; [|congruence].
      apply str_contains_spec, substring_of_lower. rewrite <- Heq.
      apply (Hsub 0%nat). lia.
    + apply not_true_is_false.
      intros [_ Hin%str_contains_spec]%andb_true_iff.
      assert (str_contains (Py.lower vid) (Py.lower (raw v)) = true)
        as HC'; [|congruence].
      apply str_contains_spec. eapply substring_of_trans; [exact Hin|].
      apply substring_of_lower, (Hsub 1%nat). lia.
Qed.


(** X28. An empty query finds every record of the roster. *)
Theorem found_empty_query file :
  found (load_voznipark file) "" = load_voznipark file.
Proof.
  unfold found. apply forallb_filter_id, forallb_forall.
  intros v Hv%list_elem_of_In.
  rewrite (vehicle_found_raw file "" v Hv).
  apply str_contains_spec. exists "", (Py.lower (raw v)). reflexivity.
Qed.
